(** * Mindful Moments (src/index.tsx): entry store, badge engine, reframing pipeline

    A shallow embedding of the stateful core of the journaling application:
    the hydration and persistence effects of [App], the badge conditions and
    their recompute, and the composition view [JournalView] with its
    asynchronous reframing handler.

    Conventions.
    - A JavaScript string is a Rocq [string] holding its UTF-8 bytes; the
      empty string is the only falsy one.
    - An optional field ([negativeThought?: string]) is an [option string];
      [None] is [undefined].
    - Every [useState] cell is a record field; a handler is a function from
      the state it closes over to the state after its setters are applied.
    - A statement that may throw returns a [Completion]. *)

From Stdlib Require Import String Ascii List NArith Bool Lia.
From stdpp Require Import base option list strings gmap.
Import ListNotations.

Local Open Scope string_scope.

(** ** JavaScript strings *)

Module JS.

Definition code (a : ascii) : N := N_of_ascii a.
Definition chr (n : N) : ascii := ascii_of_N n.

(** Truthiness of a string ([!!s]) and of an optional string. *)
Definition truthy (s : string) : bool :=
  match s with EmptyString => false | String _ _ => true end.

Definition truthy_opt (o : option string) : bool :=
  match o with None => false | Some s => truthy s end.

(** UTF-8 encoding of a code point (generalised: a lone surrogate gets its
    three-byte form). *)
Definition utf8 (cp : N) : string :=
  if (cp <? 0x80)%N then String (chr cp) ""
  else if (cp <? 0x800)%N then
    String (chr (0xC0 + cp / 64)) (String (chr (0x80 + cp mod 64)) "")
  else if (cp <? 0x10000)%N then
    String (chr (0xE0 + cp / 4096))
      (String (chr (0x80 + (cp / 64) mod 64)) (String (chr (0x80 + cp mod 64)) ""))
  else
    String (chr (0xF0 + cp / 262144))
      (String (chr (0x80 + (cp / 4096) mod 64))
         (String (chr (0x80 + (cp / 64) mod 64)) (String (chr (0x80 + cp mod 64)) ""))).

(** The code points [String.prototype.trim] removes: ECMAScript's
    WhiteSpace and LineTerminator productions. *)
Definition whitespace_code_points : list N :=
  [ 0x9; 0xA; 0xB; 0xC; 0xD; 0x20; 0xA0; 0x1680;
    0x2000; 0x2001; 0x2002; 0x2003; 0x2004; 0x2005; 0x2006; 0x2007;
    0x2008; 0x2009; 0x200A; 0x2028; 0x2029; 0x202F; 0x205F; 0x3000;
    0xFEFF ]%N.

(** A string made of white space only (the empty string included). *)
Inductive whitespace_only : string -> Prop :=
| ws_empty : whitespace_only ""
| ws_more cp s :
    In cp whitespace_code_points -> whitespace_only s ->
    whitespace_only (utf8 cp +:+ s).

(** [trim] on the UTF-8 bytes: one-, two- and three-byte white space. *)
Definition ws1 (a : ascii) : bool :=
  let n := code a in ((9 <=? n) && (n <=? 13) || (n =? 32))%N.

Definition ws2 (a b : ascii) : bool :=
  ((code a =? 0xC2) && (code b =? 0xA0))%N.

Definition ws3 (a b c : ascii) : bool :=
  let '(n, m, k) := (code a, code b, code c) in
  ((n =? 0xE1) && (m =? 0x9A) && (k =? 0x80)
   || (n =? 0xE2) && (m =? 0x80)
        && ((0x80 <=? k) && (k <=? 0x8A) || (k =? 0xA8) || (k =? 0xA9) || (k =? 0xAF))
   || (n =? 0xE2) && (m =? 0x81) && (k =? 0x9F)
   || (n =? 0xE3) && (m =? 0x80) && (k =? 0x80)
   || (n =? 0xEF) && (m =? 0xBB) && (k =? 0xBF))%N.

Fixpoint trimStart (s : string) : string :=
  match s with
  | EmptyString => s
  | String a r =>
      if ws1 a then trimStart r else
      match r with
      | EmptyString => s
      | String b r2 =>
          if ws2 a b then trimStart r2 else
          match r2 with
          | EmptyString => s
          | String c r3 => if ws3 a b c then trimStart r3 else s
          end
      end
  end.

(** The same scan from the other end, on the reversed bytes. *)
Fixpoint trimStart_rev (s : string) : string :=
  match s with
  | EmptyString => s
  | String c r =>
      if ws1 c then trimStart_rev r else
      match r with
      | EmptyString => s
      | String b r2 =>
          if ws2 b c then trimStart_rev r2 else
          match r2 with
          | EmptyString => s
          | String a r3 => if ws3 a b c then trimStart_rev r3 else s
          end
      end
  end.

Definition trimEnd (s : string) : string :=
  String.rev (trimStart_rev (String.rev s)).

Definition trim (s : string) : string := trimEnd (trimStart s).

(** [Number.prototype.toString] for a non-negative integer. *)
Fixpoint digits (fuel : nat) (n : N) (acc : string) : string :=
  let acc' := String (chr (48 + n mod 10)) acc in
  match fuel with
  | O => acc'
  | S f => if (n <? 10)%N then acc' else digits f (n / 10)%N acc'
  end.

Definition toString (n : N) : string := digits (N.to_nat (N.log2 n)) n "".

End JS.

(** ** Exceptions *)

Record JsError := { err_name : string; err_message : string }.

Inductive Completion (A : Type) : Type :=
| Normal (a : A)
| Throw (e : JsError).
Arguments Normal {A} a.
Arguments Throw {A} e.

Definition SyntaxError : JsError :=
  {| err_name := "SyntaxError"; err_message := "Unexpected token in JSON" |}.

(** ** JSON.parse and JSON.stringify (ECMA-404 grammar over the bytes) *)

Module JSON.

(** A number keeps its source text: nothing in this program reads one. *)
#[warnings="-register-all"]
Inductive value : Type :=
| Null
| Bool (b : bool)
| Number (lexeme : string)
| Str (s : string)
| Arr (items : list value)
| Obj (members : list (string * value)).

Definition at_code c (a : ascii) : bool := (JS.code a =? c)%N.

Definition is_ws (a : ascii) : bool :=
  at_code 0x20 a || at_code 0x09 a || at_code 0x0A a || at_code 0x0D a.

Fixpoint skip_ws (s : string) : string :=
  match s with
  | String a r => if is_ws a then skip_ws r else s
  | EmptyString => s
  end.

Fixpoint strip_prefix (p s : string) : option string :=
  match p, s with
  | EmptyString, _ => Some s
  | String a p', String b s' => if Ascii.eqb a b then strip_prefix p' s' else None
  | String _ _, EmptyString => None
  end.

Definition is_digit (a : ascii) : bool :=
  let n := JS.code a in ((48 <=? n) && (n <=? 57))%N.

Definition hex_digit (a : ascii) : option N :=
  let n := JS.code a in
  if ((48 <=? n) && (n <=? 57))%N then Some (n - 48)%N
  else if ((65 <=? n) && (n <=? 70))%N then Some (n - 55)%N
  else if ((97 <=? n) && (n <=? 102))%N then Some (n - 87)%N
  else None.

Definition hex4 (a b c d : ascii) : option N :=
  h1 ← hex_digit a; h2 ← hex_digit b; h3 ← hex_digit c; h4 ← hex_digit d;
  Some (((h1 * 16 + h2) * 16 + h3) * 16 + h4)%N.

(** The character a two-character escape stands for. *)
Definition simple_escape (e : ascii) : option ascii :=
  let n := JS.code e in
  if (n =? 34)%N then Some (JS.chr 34)          (* quote *)
  else if (n =? 92)%N then Some (JS.chr 92)     (* backslash *)
  else if (n =? 47)%N then Some (JS.chr 47)     (* solidus *)
  else if (n =? 98)%N then Some (JS.chr 8)      (* b *)
  else if (n =? 102)%N then Some (JS.chr 12)    (* f *)
  else if (n =? 110)%N then Some (JS.chr 10)    (* n *)
  else if (n =? 114)%N then Some (JS.chr 13)    (* r *)
  else if (n =? 116)%N then Some (JS.chr 9)     (* t *)
  else None.

(** A low surrogate escape at the head of [s], with what follows it. *)
Definition low_surrogate (s : string) : option (N * string) :=
  match s with
  | String b (String u (String h1 (String h2 (String h3 (String h4 r))))) =>
      if at_code 92 b && at_code 117 u then
        n ← hex4 h1 h2 h3 h4;
        if ((0xDC00 <=? n) && (n <? 0xE000))%N then Some (n, r) else None
      else None
  | _ => None
  end.

(** The characters of a string after its opening quote, up to and
    including the closing one: the decoded text and the rest. *)
Fixpoint string_body (s : string) : option (string * string) :=
  match s with
  | EmptyString => None
  | String a r =>
      if at_code 34 a then Some ("", r)
      else if (JS.code a <? 0x20)%N then None
      else if at_code 92 a then
        match r with
        | EmptyString => None
        | String e r2 =>
            match simple_escape e with
            | Some c => '(str, rest) ← string_body r2; Some (String c str, rest)
            | None =>
                if at_code 117 e then
                  match r2 with
                  | String h1 (String h2 (String h3 (String h4 r3))) =>
                      n ← hex4 h1 h2 h3 h4;
                      match
                        (if ((0xD800 <=? n) && (n <? 0xDC00))%N
                         then low_surrogate r3 else None),
                        r3
                      with
                      | Some (lo, _),
                        String _ (String _ (String _ (String _ (String _ (String _ r4))))) =>
                          '(str, rest) ← string_body r4;
                          Some (JS.utf8 (0x10000 + (n - 0xD800) * 1024 + (lo - 0xDC00))
                                  +:+ str, rest)
                      | _, _ =>
                          '(str, rest) ← string_body r3;
                          Some (JS.utf8 n +:+ str, rest)
                      end
                  | _ => None
                  end
                else None
            end
        end
      else '(str, rest) ← string_body r; Some (String a str, rest)
  end.

(** The longest prefix of digits and the rest. *)
Fixpoint span_digits (s : string) : string * string :=
  match s with
  | String a r =>
      if is_digit a then let '(d, rest) := span_digits r in (String a d, rest)
      else ("", s)
  | EmptyString => ("", s)
  end.

(** An optional minus sign; a zero, or a non-zero digit and more digits;
    optionally a point and digits; optionally an exponent: e or E, an
    optional sign, digits. *)
Definition number (s : string) : option (string * string) :=
  let '(sign, s1) :=
    match s with
    | String a r => if at_code 45 a then (String a "", r) else ("", s)
    | EmptyString => ("", s)
    end in
  '(int, s2) ←
    match s1 with
    | String a r =>
        if at_code 48 a then Some (String a "", r)
        else if is_digit a then Some (span_digits s1)
        else None
    | EmptyString => None
    end;
  '(frac, s3) ←
    match s2 with
    | String a r =>
        if at_code 46 a then
          match span_digits r with
          | (EmptyString, _) => None
          | (d, rest) => Some (String a d, rest)
          end
        else Some ("", s2)
    | EmptyString => Some ("", s2)
    end;
  '(exp, s4) ←
    match s3 with
    | String a r =>
        if at_code 101 a || at_code 69 a then
          let '(sg, r') :=
            match r with
            | String b r2 => if at_code 43 b || at_code 45 b then (String b "", r2) else ("", r)
            | EmptyString => ("", r)
            end in
          match span_digits r' with
          | (EmptyString, _) => None
          | (d, rest) => Some (String a sg +:+ d, rest)
          end
        else Some ("", s3)
    | EmptyString => Some ("", s3)
    end;
  Some (sign +:+ int +:+ frac +:+ exp, s4).

(** What the parser is in the middle of: a value, the elements of an array
    after [acc], or the members of an object after [acc]. *)
Inductive mode : Type :=
| MValue
| MElems (acc : list value)
| MMembers (acc : list (string * value)).

Fixpoint parse_at (fuel : nat) (m : mode) (s : string) : option (value * string) :=
  match fuel with
  | O => None
  | S f =>
      match m with
      | MValue =>
          match skip_ws s with
          | EmptyString => None
          | String a r as s' =>
              if at_code 34 a then '(str, rest) ← string_body r; Some (Str str, rest)
              else if at_code 91 a then
                match skip_ws r with
                | String b r' => if at_code 93 b then Some (Arr [], r') else parse_at f (MElems []) r
                | EmptyString => None
                end
              else if at_code 123 a then
                match skip_ws r with
                | String b r' => if at_code 125 b then Some (Obj [], r') else parse_at f (MMembers []) r
                | EmptyString => None
                end
              else if at_code 110 a then rest ← strip_prefix "null" s'; Some (Null, rest)
              else if at_code 116 a then rest ← strip_prefix "true" s'; Some (Bool true, rest)
              else if at_code 102 a then rest ← strip_prefix "false" s'; Some (Bool false, rest)
              else '(lexeme, rest) ← number s'; Some (Number lexeme, rest)
          end
      | MElems acc =>
          '(v, r) ← parse_at f MValue s;
          match skip_ws r with
          | String b r' =>
              if at_code 44 b then parse_at f (MElems (v :: acc)) r'
              else if at_code 93 b then Some (Arr (rev (v :: acc)), r')
              else None
          | EmptyString => None
          end
      | MMembers acc =>
          match skip_ws s with
          | String q r =>
              if at_code 34 q then
                '(k, r1) ← string_body r;
                match skip_ws r1 with
                | String c r2 =>
                    if at_code 58 c then
                      '(v, r3) ← parse_at f MValue r2;
                      match skip_ws r3 with
                      | String b r' =>
                          if at_code 44 b then parse_at f (MMembers ((k, v) :: acc)) r'
                          else if at_code 125 b then Some (Obj (rev ((k, v) :: acc)), r')
                          else None
                      | EmptyString => None
                      end
                    else None
                | EmptyString => None
                end
              else None
          | EmptyString => None
          end
      end
  end.

(** [JSON.parse]: one value, white space around it, nothing else. *)
Definition parse (s : string) : Completion value :=
  match parse_at (2 * String.length s + 2) MValue s with
  | Some (v, rest) =>
      match skip_ws rest with
      | EmptyString => Normal v
      | String _ _ => Throw SyntaxError
      end
  | None => Throw SyntaxError
  end.

(** Property lookup on a parsed object: the last of duplicate keys wins. *)
Fixpoint get (k : string) (members : list (string * value)) : option value :=
  match members with
  | [] => None
  | (k', v) :: rest =>
      match get k rest with
      | Some v' => Some v'
      | None => if String.eqb k k' then Some v else None
      end
  end.

Definition hex_char (n : N) : ascii :=
  if (n <? 10)%N then JS.chr (48 + n) else JS.chr (87 + n).

(** The escapes of [QuoteJSONString], byte by byte.  A lone surrogate, which
    [JSON.stringify] writes as a [\u] escape, is copied here in its
    three-byte form; [string_body] reads both forms back to the same
    string. *)
Definition escape (a : ascii) : string :=
  let n := JS.code a in
  if (n =? 34)%N then String (JS.chr 92) (String (JS.chr 34) "")
  else if (n =? 92)%N then String (JS.chr 92) (String (JS.chr 92) "")
  else if (n =? 8)%N then String (JS.chr 92) "b"
  else if (n =? 12)%N then String (JS.chr 92) "f"
  else if (n =? 10)%N then String (JS.chr 92) "n"
  else if (n =? 13)%N then String (JS.chr 92) "r"
  else if (n =? 9)%N then String (JS.chr 92) "t"
  else if (n <? 0x20)%N then
    String (JS.chr 92) ("u00" +:+ String (hex_char (n / 16)) (String (hex_char (n mod 16)) ""))
  else String a "".

Fixpoint quote_body (s : string) : string :=
  match s with
  | EmptyString => String (JS.chr 34) ""
  | String a r => escape a +:+ quote_body r
  end.

Definition quote (s : string) : string := String (JS.chr 34) (quote_body s).

Fixpoint join (parts : list string) : string :=
  match parts with
  | [] => ""
  | [p] => p
  | p :: rest => p +:+ "," +:+ join rest
  end.

Fixpoint stringify (v : value) : string :=
  match v with
  | Null => "null"
  | Bool true => "true"
  | Bool false => "false"
  | Number lexeme => lexeme
  | Str s => quote s
  | Arr items => "[" +:+ join (map stringify items) +:+ "]"
  | Obj members =>
      "{" +:+ join (map (fun kv => match kv with
                                    | (k, x) => quote k +:+ ":" +:+ stringify x
                                    end) members) +:+ "}"
  end.

End JSON.

(** ** Types (src/index.tsx, lines 23-47) *)

Inductive Mood : Type := very_sad | sad | neutral | happy | very_happy.

Module Entry.
Record t : Type := {
  id : string;
  date : string;
  content : string;
  mood : Mood;
  negativeThought : option string;
  cbtSuggestion : option string;
  prompt : option string
}.
End Entry.
Abbreviation JournalEntry := Entry.t.

(** A lucide icon element, as in [<Book size={20} />]. *)
Inductive LucideIcon : Type := Book | Sparkles | Brain | Award.
Record ReactNode : Type := { component : LucideIcon; size : N }.

Module Badge.
Record t : Type := {
  id : string;
  name : string;
  description : string;
  icon : ReactNode;
  unlocked : bool;
  condition : list JournalEntry -> bool
}.
End Badge.
Abbreviation Badge := Badge.t.

Record UserSettings : Type := { reminderTime : string; reminderEnabled : bool }.

(** ** Serialised form of the persisted state *)

Definition mood_name (m : Mood) : string :=
  match m with
  | very_sad => "very_sad"
  | sad => "sad"
  | neutral => "neutral"
  | happy => "happy"
  | very_happy => "very_happy"
  end.

Definition mood_of_name (s : string) : option Mood :=
  if String.eqb s "very_sad" then Some very_sad
  else if String.eqb s "sad" then Some sad
  else if String.eqb s "neutral" then Some neutral
  else if String.eqb s "happy" then Some happy
  else if String.eqb s "very_happy" then Some very_happy
  else None.

(** [JSON.stringify] leaves a property out when its value is [undefined]. *)
Definition optional_member (k : string) (o : option string) : list (string * JSON.value) :=
  match o with
  | Some s => [(k, JSON.Str s)]
  | None => []
  end.

Definition entry_to_json (e : JournalEntry) : JSON.value :=
  JSON.Obj
    ([ ("id", JSON.Str (Entry.id e));
       ("date", JSON.Str (Entry.date e));
       ("content", JSON.Str (Entry.content e));
       ("mood", JSON.Str (mood_name (Entry.mood e))) ]
     ++ optional_member "negativeThought" (Entry.negativeThought e)
     ++ optional_member "cbtSuggestion" (Entry.cbtSuggestion e)
     ++ optional_member "prompt" (Entry.prompt e)).

Definition entries_to_json (es : list JournalEntry) : JSON.value :=
  JSON.Arr (map entry_to_json es).

Definition settings_to_json (s : UserSettings) : JSON.value :=
  JSON.Obj [ ("reminderTime", JSON.Str (reminderTime s));
             ("reminderEnabled", JSON.Bool (reminderEnabled s)) ].

(** The parsed values that inhabit the declared types.  TypeScript's types
    are erased at run time, so nothing in the program performs this check:
    it is the model's boundary.  A parsed object with more properties than
    the declared ones keeps them in the program; the record has no place
    for them, and [as_entry] reads the declared ones only. *)
Definition as_string (v : JSON.value) : option string :=
  match v with JSON.Str s => Some s | _ => None end.

Definition as_optional_string (o : option JSON.value) : option (option string) :=
  match o with
  | None => Some None
  | Some (JSON.Str s) => Some (Some s)
  | Some _ => None
  end.

Definition as_entry (v : JSON.value) : option JournalEntry :=
  match v with
  | JSON.Obj o =>
      i ← JSON.get "id" o ≫= as_string;
      d ← JSON.get "date" o ≫= as_string;
      c ← JSON.get "content" o ≫= as_string;
      mn ← JSON.get "mood" o ≫= as_string;
      m ← mood_of_name mn;
      n ← as_optional_string (JSON.get "negativeThought" o);
      s ← as_optional_string (JSON.get "cbtSuggestion" o);
      p ← as_optional_string (JSON.get "prompt" o);
      Some {| Entry.id := i; Entry.date := d; Entry.content := c; Entry.mood := m;
              Entry.negativeThought := n; Entry.cbtSuggestion := s; Entry.prompt := p |}
  | _ => None
  end.

Definition as_entries (v : JSON.value) : option (list JournalEntry) :=
  match v with
  | JSON.Arr items => mapM as_entry items
  | _ => None
  end.

Definition as_settings (v : JSON.value) : option UserSettings :=
  match v with
  | JSON.Obj o =>
      t ← JSON.get "reminderTime" o ≫= as_string;
      match JSON.get "reminderEnabled" o with
      | Some (JSON.Bool b) => Some {| reminderTime := t; reminderEnabled := b |}
      | _ => None
      end
  | _ => None
  end.

(** ** Badges (lines 102-139) *)

Definition first_step_condition (e : list JournalEntry) : bool :=
  (1 <=? length e)%nat.

Definition streak_3_condition (e : list JournalEntry) : bool :=
  if (length e <? 3)%nat then false else true.

Definition cbt_explorer_condition (e : list JournalEntry) : bool :=
  existsb (fun entry => JS.truthy_opt (Entry.cbtSuggestion entry)) e.

Definition master_10_condition (e : list JournalEntry) : bool :=
  (10 <=? length e)%nat.

Definition initial_badges : list Badge :=
  [ {| Badge.id := "first_step";
       Badge.name := "起步者";
       Badge.description := "完成你的第一篇感恩日记。";
       Badge.icon := {| component := Book; size := 20 |};
       Badge.unlocked := false;
       Badge.condition := first_step_condition |};
    {| Badge.id := "streak_3";
       Badge.name := "三日连胜";
       Badge.description := "连续记录3天。";
       Badge.icon := {| component := Sparkles; size := 20 |};
       Badge.unlocked := false;
       Badge.condition := streak_3_condition |};
    {| Badge.id := "cbt_explorer";
       Badge.name := "思维探索者";
       Badge.description := "完成一次负面思维重构练习。";
       Badge.icon := {| component := Brain; size := 20 |};
       Badge.unlocked := false;
       Badge.condition := cbt_explorer_condition |};
    {| Badge.id := "master_10";
       Badge.name := "感恩大师";
       Badge.description := "累计记录10件感恩之事。";
       Badge.icon := {| component := Award; size := 20 |};
       Badge.unlocked := false;
       Badge.condition := master_10_condition |} ].

(** The updater of line 157: every badge copied, [unlocked] recomputed. *)
Definition recompute (entries : list JournalEntry) (prev : list Badge) : list Badge :=
  map (fun badge =>
         {| Badge.id := Badge.id badge;
            Badge.name := Badge.name badge;
            Badge.description := Badge.description badge;
            Badge.icon := Badge.icon badge;
            Badge.unlocked := Badge.condition badge entries;
            Badge.condition := Badge.condition badge |}) prev.

(** The ids of the badges shown as unlocked, in list order. *)
Definition unlocked_ids (badges : list Badge) : list string :=
  map Badge.id (filter (fun b => Badge.unlocked b = true) badges).

(** Everything of a badge but its [unlocked] flag. *)
Definition static_part (b : Badge) :=
  (Badge.id b, Badge.name b, Badge.description b, Badge.icon b, Badge.condition b).

(** ** The application component (lines 97-243) *)

Inductive Tab : Type := home | journal | exercises | profile.

(** [localStorage]: a string-keyed store of strings.  Writes are taken to
    succeed. *)
Abbreviation Storage := (gmap string string).

Module App.

Record state : Type := {
  activeTab : Tab;
  entries : list JournalEntry;
  settings : UserSettings;
  badges : list Badge;
  isGenerating : bool;
  (** [viewProps.prompt] *)
  viewProps : option string
}.

Definition initial : state :=
  {| activeTab := home;
     entries := [];
     settings := {| reminderTime := "20:00"; reminderEnabled := false |};
     badges := initial_badges;
     isGenerating := false;
     viewProps := None |}.

Definition setEntries (es : list JournalEntry) (st : state) : state :=
  {| activeTab := activeTab st; entries := es; settings := settings st;
     badges := badges st; isGenerating := isGenerating st; viewProps := viewProps st |}.

Definition setSettings (s : UserSettings) (st : state) : state :=
  {| activeTab := activeTab st; entries := entries st; settings := s;
     badges := badges st; isGenerating := isGenerating st; viewProps := viewProps st |}.

Definition setBadges (update : list Badge -> list Badge) (st : state) : state :=
  {| activeTab := activeTab st; entries := entries st; settings := settings st;
     badges := update (badges st); isGenerating := isGenerating st;
     viewProps := viewProps st |}.

Definition setActiveTab (t : Tab) (st : state) : state :=
  {| activeTab := t; entries := entries st; settings := settings st;
     badges := badges st; isGenerating := isGenerating st; viewProps := viewProps st |}.

Definition setViewProps (p : option string) (st : state) : state :=
  {| activeTab := activeTab st; entries := entries st; settings := settings st;
     badges := badges st; isGenerating := isGenerating st; viewProps := p |}.

(** How the mount effect ends: normally; with an exception nothing
    catches; or with a parsed value handed to a setter although it is not
    of the declared type, where the typed model stops. *)
Inductive outcome : Type :=
| Completed (st : state)
| Uncaught (e : JsError)
| OutsideTypes (key : string) (v : JSON.value).

Section Hydration.

(** [JSON.parse], a parameter so that results hold for any parser. *)
Variable parse : string -> Completion JSON.value.

(** Lines 146-147. *)
Definition load_entries (ls : Storage) (st : state) : outcome :=
  match ls !! "mm_entries" with
  | Some savedEntries =>
      if JS.truthy savedEntries then
        match parse savedEntries with
        | Throw e => Uncaught e
        | Normal v =>
            match as_entries v with
            | Some es => Completed (setEntries es st)
            | None => OutsideTypes "mm_entries" v
            end
        end
      else Completed st
  | None => Completed st
  end.

(** Lines 149-150. *)
Definition load_settings (ls : Storage) (st : state) : outcome :=
  match ls !! "mm_settings" with
  | Some savedSettings =>
      if JS.truthy savedSettings then
        match parse savedSettings with
        | Throw e => Uncaught e
        | Normal v =>
            match as_settings v with
            | Some s => Completed (setSettings s st)
            | None => OutsideTypes "mm_settings" v
            end
        end
      else Completed st
  | None => Completed st
  end.

(** The effect of lines 145-151, run once on mount. *)
Definition hydration_effect (ls : Storage) (st : state) : outcome :=
  match load_entries ls st with
  | Completed st1 => load_settings ls st1
  | stopped => stopped
  end.

End Hydration.

(** The effect of lines 153-161, run whenever [entries] changes. *)
Definition entries_effect (w : Storage * state) : Storage * state :=
  let '(ls, st) := w in
  (<["mm_entries" := JSON.stringify (entries_to_json (entries st))]> ls,
   setBadges (recompute (entries st)) st).

(** The effect of lines 163-165. *)
Definition settings_effect (w : Storage * state) : Storage * state :=
  let '(ls, st) := w in
  (<["mm_settings" := JSON.stringify (settings_to_json (settings st))]> ls, st).

(** Lines 169-172. *)
Definition handleSaveEntry (entry : JournalEntry) (st : state) : state :=
  setActiveTab home (setEntries (entry :: entries st) st).

(** Lines 174-183. *)
Definition handleNavigateToExercise (prompt : string) (st : state) : state :=
  setActiveTab journal (setViewProps (Some prompt) st).

(** [onSave] as the journal view sees it: the handler, then the effect its
    change of [entries] triggers. *)
Definition onSave (entry : JournalEntry) (w : Storage * state) : Storage * state :=
  entries_effect (fst w, handleSaveEntry entry (snd w)).

End App.

(** ** Requests to the text-generation service *)

Definition SYSTEM_INSTRUCTION : string := "
You are an empathetic, warm, and professional CBT (Cognitive Behavioral Therapy) assistant embedded in a gratitude journal.
Your goal is to help the user challenge negative thoughts using CBT techniques (like identifying cognitive distortions, reframing, or reality testing) while validating their feelings.
Keep your response concise (under 150 words), structured, and gentle.
Structure your response in Markdown:
**1. 识别与共情 (Validation):** Briefly validate their emotion.
**2. 思维误区 (Distortion):** Identify potential cognitive distortions (e.g., All-or-nothing thinking, Catastrophizing).
**3. 新的视角 (Reframe):** Offer a healthier, more balanced perspective or a question to ask themselves.
".

(** The argument of [generateContent]: [contents] has one part, a text. *)
Record GenerateContentRequest : Type := {
  model : string;
  contents_role : string;
  contents_text : string;
  systemInstruction : string
}.

(** The response as the handler reads it: [response.text] is the text of
    the answer, or [undefined] ([None]) for an answer that has none. *)
Record GenerateContentResponse : Type := { text : option string }.

(** ** The composition view (lines 319-465) *)

Module JournalView.

(** The cell [aiSuggestion] is declared a string, but line 348 stores
    [response.text] in it unchecked: it can hold [undefined] ([None]). *)
Record state : Type := {
  content : string;
  mood : Mood;
  showCBT : bool;
  negativeThought : string;
  aiSuggestion : option string;
  isAnalysing : bool
}.

(** Lines 320-325. *)
Definition initial : state :=
  {| content := ""; mood := neutral; showCBT := false;
     negativeThought := ""; aiSuggestion := Some ""; isAnalysing := false |}.

Definition setContent (s : string) (c : state) : state :=
  {| content := s; mood := mood c; showCBT := showCBT c;
     negativeThought := negativeThought c; aiSuggestion := aiSuggestion c;
     isAnalysing := isAnalysing c |}.

Definition setMood (m : Mood) (c : state) : state :=
  {| content := content c; mood := m; showCBT := showCBT c;
     negativeThought := negativeThought c; aiSuggestion := aiSuggestion c;
     isAnalysing := isAnalysing c |}.

Definition setShowCBT (b : bool) (c : state) : state :=
  {| content := content c; mood := mood c; showCBT := b;
     negativeThought := negativeThought c; aiSuggestion := aiSuggestion c;
     isAnalysing := isAnalysing c |}.

Definition setNegativeThought (s : string) (c : state) : state :=
  {| content := content c; mood := mood c; showCBT := showCBT c;
     negativeThought := s; aiSuggestion := aiSuggestion c;
     isAnalysing := isAnalysing c |}.

Definition setAiSuggestion (s : option string) (c : state) : state :=
  {| content := content c; mood := mood c; showCBT := showCBT c;
     negativeThought := negativeThought c; aiSuggestion := s;
     isAnalysing := isAnalysing c |}.

Definition setIsAnalysing (b : bool) (c : state) : state :=
  {| content := content c; mood := mood c; showCBT := showCBT c;
     negativeThought := negativeThought c; aiSuggestion := aiSuggestion c;
     isAnalysing := b |}.

(** The view and what surrounds it: the requests sent and not yet
    answered, and what was written to the console. *)
Record world : Type := {
  view : state;
  in_flight : list GenerateContentRequest;
  console : list JsError
}.

Definition start : world := {| view := initial; in_flight := []; console := [] |}.

Definition on_view (f : state -> state) (w : world) : world :=
  {| view := f (view w); in_flight := in_flight w; console := console w |}.

Definition send (r : GenerateContentRequest) (w : world) : world :=
  {| view := view w; in_flight := in_flight w ++ [r]; console := console w |}.

Definition console_error (e : JsError) (w : world) : world :=
  {| view := view w; in_flight := in_flight w; console := console w ++ [e] |}.

(** Statements that may throw, over the world. *)
Definition M (A : Type) : Type := world -> Completion A * world.

Definition ret {A} (a : A) : M A := fun w => (Normal a, w).
Definition throw {A} (e : JsError) : M A := fun w => (Throw e, w).
Definition bind {A B} (m : M A) (k : A -> M B) : M B :=
  fun w => match m w with
           | (Normal a, w1) => k a w1
           | (Throw e, w1) => (Throw e, w1)
           end.
Definition exec (f : world -> world) : M unit := fun w => (Normal tt, f w).

(** [try { body } catch (e) { handler } finally { final }] *)
Definition try_catch_finally {A} (body : M A) (handler : JsError -> M A) (final : M unit)
  : M A :=
  fun w =>
    let '(r, w1) :=
      match body w with
      | (Normal a, w1) => (Normal a, w1)
      | (Throw e, w1) => handler e w1
      end in
    match final w1 with
    | (Normal _, w2) => (r, w2)
    | (Throw e, w2) => (Throw e, w2)
    end.

Definition FALLBACK_SUGGESTION : string :=
  "抱歉，AI 暂时无法连接。请试着问自己：这个想法是100%真实的吗？".

Definition nl : string := String (JS.chr 10) "".
Definition dq : string := String (JS.chr 34) "".

(** The template of lines 334-339. *)
Definition prompt_text (c : state) : string :=
  nl +:+ "        User's Negative Thought: " +:+ dq +:+ negativeThought c +:+ dq
  +:+ nl +:+ "        User's Current Mood: " +:+ mood_name (mood c)
  +:+ nl +:+ "        "
  +:+ nl +:+ "        Please analyze this thought using CBT principles."
  +:+ nl +:+ "      ".

(** The argument of [generateContent], lines 342-346. *)
Definition request (c : state) : GenerateContentRequest :=
  {| model := "gemini-2.5-flash";
     contents_role := "user";
     contents_text := prompt_text c;
     systemInstruction := SYSTEM_INSTRUCTION |}.

(** Lines 349-351. *)
Definition catch_block (e : JsError) : M unit :=
  bind (exec (console_error e))
       (fun _ => exec (on_view (setAiSuggestion (Some FALLBACK_SUGGESTION)))).

(** Lines 352-354. *)
Definition finally_block : M unit := exec (on_view (setIsAnalysing false)).

(** The promise an [async] handler returned: settled, or still waiting at
    its [await]. *)
Inductive Async : Type :=
| Settled (r : Completion unit)
| Suspended.

(** [handleAnalyzeCBT] from the click to the [await] (lines 327-346).
    [sdk] is what constructing the client and calling [generateContent]
    do before a promise exists: they throw, or the request leaves. *)
Definition handleAnalyzeCBT (sdk : Completion unit) (w : world) : Async * world :=
  if negb (JS.truthy (negativeThought (view w))) then (Settled (Normal tt), w)
  else
    let w1 := on_view (setIsAnalysing true) w in
    match sdk with
    | Normal _ => (Suspended, send (request (view w)) w1)
    | Throw e =>
        let '(r, w2) := try_catch_finally (throw e) catch_block finally_block w1 in
        (Settled r, w2)
    end.

(** [handleAnalyzeCBT] from the [await] on (lines 342-354): the promise of
    [generateContent] was fulfilled with a response or rejected. *)
Definition handleAnalyzeCBT_resume (o : Completion GenerateContentResponse) (w : world)
  : Completion unit * world :=
  try_catch_finally
    (bind (fun w0 => (o, w0))
          (fun response => exec (on_view (setAiSuggestion (text response)))))
    catch_block finally_block w.

(** What the user and the service can do to a mounted view.  A control
    that is not rendered, or is disabled, does nothing. *)
Inductive event : Type :=
| ChangeContent (s : string)
| ClickMood (m : Mood)
| ToggleCBT
| ChangeNegativeThought (s : string)
| ClickAnalyze (sdk : Completion unit)
| ClickRegenerate
| Answer (o : Completion GenerateContentResponse).

(** Lines 431-438: the button exists while there is no suggestion. *)
Definition analyze_button_enabled (c : state) : bool :=
  showCBT c && negb (JS.truthy_opt (aiSuggestion c))
  && negb (isAnalysing c || negb (JS.truthy (negativeThought c))).

Definition step (ev : event) (w : world) : world :=
  match ev with
  | ChangeContent s => on_view (setContent s) w
  | ClickMood m => on_view (setMood m) w
  | ToggleCBT => on_view (setShowCBT (negb (showCBT (view w)))) w
  | ChangeNegativeThought s =>
      if showCBT (view w) then on_view (setNegativeThought s) w else w
  | ClickAnalyze sdk =>
      if analyze_button_enabled (view w) then snd (handleAnalyzeCBT sdk w) else w
  | ClickRegenerate =>
      if showCBT (view w) && JS.truthy_opt (aiSuggestion (view w))
      then on_view (setAiSuggestion (Some "")) w else w
  | Answer o =>
      match in_flight w with
      | [] => w
      | _ :: rest =>
          snd (handleAnalyzeCBT_resume o
                 {| view := view w; in_flight := rest; console := console w |})
      end
  end.

Definition run (evs : list event) (w : world) : world :=
  fold_left (fun w ev => step ev w) evs w.

(** The clock readings [Date.now()] and [new Date().toISOString()]. *)
Record Clock : Type := { Date_now : N; toISOString : string }.

(** Lines 357-369: the entry handed to [onSave], if any. *)
Definition handleSubmit (clock : Clock) (initialPrompt : option string) (c : state)
  : option JournalEntry :=
  if negb (JS.truthy (JS.trim (content c))) then None
  else
    Some {| Entry.id := JS.toString (Date_now clock);
            Entry.date := toISOString clock;
            Entry.content := content c;
            Entry.mood := mood c;
            Entry.negativeThought := if showCBT c then Some (negativeThought c) else None;
            Entry.cbtSuggestion := if showCBT c then aiSuggestion c else None;
            Entry.prompt := initialPrompt |}.

(** Lines 456-462: the save button. *)
Definition clickSave (clock : Clock) (initialPrompt : option string) (c : state)
  : option JournalEntry :=
  if negb (JS.truthy (JS.trim (content c))) then None
  else handleSubmit clock initialPrompt c.

End JournalView.

(** The view mounted in the application (line 194): a click on save, with
    [onSave] and [initialPrompt] as [App] passes them. *)
Definition save (clock : JournalView.Clock) (c : JournalView.state)
    (w : Storage * App.state) : Storage * App.state :=
  match JournalView.clickSave clock (App.viewProps (snd w)) c with
  | Some entry => App.onSave entry w
  | None => w
  end.

(** The spec's pipeline states (section 4.3), read off the view's cells. *)
Inductive Pipeline : Type := Idle | Ready | Requesting | Resolved.

Definition pipeline (c : JournalView.state) : Pipeline :=
  if JournalView.isAnalysing c then Requesting
  else if JS.truthy_opt (JournalView.aiSuggestion c) then Resolved
  else if JS.truthy (JournalView.negativeThought c) then Ready
  else Idle.

Import JournalView.

(** ** An invariant of the view and its requests *)

(** The unanswered requests are the one of the running analysis, if any. *)
Definition in_flight_matches (w : world) : Prop :=
  length (in_flight w) = (if isAnalysing (view w) then 1 else 0)%nat.

(** ** Sample data *)

Definition sample_clock : Clock :=
  {| Date_now := 1700000000000; toISOString := "2023-11-14T22:13:20.000Z" |}.

Definition sample_thought : string := "我总是做不好".

Definition entry_without_suggestion : JournalEntry :=
  {| Entry.id := "1700000000000"; Entry.date := "2023-11-14T22:13:20.000Z";
     Entry.content := "a walk in the sun"; Entry.mood := happy;
     Entry.negativeThought := Some sample_thought; Entry.cbtSuggestion := None;
     Entry.prompt := None |}.

Definition entry_with_suggestion : JournalEntry :=
  {| Entry.id := "1700000000001"; Entry.date := "2023-11-14T22:13:20.001Z";
     Entry.content := "tea with a friend"; Entry.mood := neutral;
     Entry.negativeThought := Some sample_thought;
     Entry.cbtSuggestion := Some FALLBACK_SUGGESTION;
     Entry.prompt := Some "今天有一件什么小事让你感到了一丝快乐或平静？" |}.

(** Storage whose entry-history key holds text that is not JSON. *)
Definition malformed_storage : Storage := {[ "mm_entries" := "{oops" ]}.

(** Storage whose entry-history key holds JSON that is no entry sequence. *)
Definition number_storage : Storage := {[ "mm_entries" := "42" ]}.

Definition network_error : JsError :=
  {| err_name := "TypeError"; err_message := "Failed to fetch" |}.

(** The panel opened and the thought typed: the pipeline is Ready. *)
Definition ready_world : world :=
  run [ToggleCBT; ChangeNegativeThought sample_thought] start.

(** The request sent and not yet answered: the pipeline is Requesting. *)
Definition requesting_world : world :=
  run [ClickAnalyze (Normal tt)] ready_world.

(** The service answers with text that has a space on each side. *)
Definition padded_text : string := " T ".

Definition padded_answer_world : world :=
  run [Answer (Normal {| text := Some padded_text |})] requesting_world.

(** The service answers with the empty text. *)
Definition empty_answer_world : world :=
  run [Answer (Normal {| text := Some "" |})] requesting_world.

(** The service answers with no text at all. *)
Definition textless_answer_world : world :=
  run [Answer (Normal {| text := None |})] requesting_world.

(** A composition saved after an answer without text. *)
Definition textless_composition : state :=
  setContent "a walk in the sun" (view textless_answer_world).

(** The entry that composition is saved as. *)
Definition textless_entry : JournalEntry :=
  {| Entry.id := "1700000000000"; Entry.date := "2023-11-14T22:13:20.000Z";
     Entry.content := "a walk in the sun"; Entry.mood := neutral;
     Entry.negativeThought := Some sample_thought; Entry.cbtSuggestion := None;
     Entry.prompt := None |}.

(** The entry the composition with the erased thought is saved as. *)
Definition erased_thought_entry : JournalEntry :=
  {| Entry.id := "1700000000000"; Entry.date := "2023-11-14T22:13:20.000Z";
     Entry.content := "a walk in the sun"; Entry.mood := neutral;
     Entry.negativeThought := Some "";
     Entry.cbtSuggestion := Some FALLBACK_SUGGESTION;
     Entry.prompt := None |}.

(** A composition with blank content: a space and an ideographic space. *)
Definition blank_composition : state :=
  setContent (JS.utf8 0x20 +:+ JS.utf8 0x3000 +:+ "") initial.

(** A composition saved with the panel open and no suggestion requested. *)
Definition abandoned_composition : state :=
  setContent "a walk in the sun" (view ready_world).

(** The entry that composition is saved as. *)
Definition abandoned_entry : JournalEntry :=
  {| Entry.id := "1700000000000"; Entry.date := "2023-11-14T22:13:20.000Z";
     Entry.content := "a walk in the sun"; Entry.mood := neutral;
     Entry.negativeThought := Some sample_thought; Entry.cbtSuggestion := Some "";
     Entry.prompt := None |}.

(** A composition whose thought was erased after the suggestion arrived. *)
Definition erased_thought_composition : state :=
  setContent "a walk in the sun"
    (view (run [Answer (Throw network_error); ChangeNegativeThought ""] requesting_world)).

(** A composition with the panel never opened. *)
Definition plain_composition : state := setContent "a walk in the sun" initial.

(** ** The tables (lines 63-93) *)

Inductive MoodGlyph : Type := Frown | Meh | Smile | Heart.

Module MoodRow.
Record t : Type := { value : Mood; label : string; icon : MoodGlyph; color : string }.
End MoodRow.

Definition MOODS : list MoodRow.t :=
  [ {| MoodRow.value := very_sad; MoodRow.label := "难过";
       MoodRow.icon := Frown; MoodRow.color := "text-blue-500" |};
    {| MoodRow.value := sad; MoodRow.label := "低落";
       MoodRow.icon := Meh; MoodRow.color := "text-indigo-400" |};
    {| MoodRow.value := neutral; MoodRow.label := "平静";
       MoodRow.icon := Smile; MoodRow.color := "text-gray-400" |};
    {| MoodRow.value := happy; MoodRow.label := "开心";
       MoodRow.icon := Smile; MoodRow.color := "text-yellow-500" |};
    {| MoodRow.value := very_happy; MoodRow.label := "极好";
       MoodRow.icon := Heart; MoodRow.color := "text-red-400" |} ].

(** [===] on two moods. *)
Definition mood_eqb (a b : Mood) : bool := String.eqb (mood_name a) (mood_name b).

(** Line 301: [MOODS.find(m => m.value === entry.mood)]. *)
Definition mood_row (m : Mood) : option MoodRow.t :=
  List.find (fun r => mood_eqb (MoodRow.value r) m) MOODS.

Module Exercise.
Record t : Type := {
  id : string;
  title : string;
  description : string;
  prompt : string;
  frequency : string
}.
End Exercise.

Definition GUIDED_EXERCISES : list Exercise.t :=
  [ {| Exercise.id := "daily_small_joy";
       Exercise.title := "每日微小快乐";
       Exercise.description := "发现生活中容易被忽视的美好。";
       Exercise.prompt := "今天有一件什么小事（哪怕很微不足道）让你感到了一丝快乐或平静？";
       Exercise.frequency := "Daily" |};
    {| Exercise.id := "weekly_relationship";
       Exercise.title := "人际关系反思";
       Exercise.description := "回顾本周的连接。";
       Exercise.prompt := "回顾本周，谁对你提供了支持或善意？你想对他说些什么？";
       Exercise.frequency := "Weekly" |};
    {| Exercise.id := "strength_focus";
       Exercise.title := "自我力量确认";
       Exercise.description := "CBT积极聚焦练习。";
       Exercise.prompt := "写下你今天克服的一个小困难，这体现了你的什么优点？";
       Exercise.frequency := "Anytime" |} ].

(** ** What the other views compute *)

(** HomeView, line 258: [entries.slice(0, 3)]. *)
Definition recentEntries (entries : list JournalEntry) : list JournalEntry :=
  take 3 entries.

(** HomeView, line 304: the mark on an entry that has a suggestion. *)
Definition shows_suggestion_mark (entry : JournalEntry) : bool :=
  JS.truthy_opt (Entry.cbtSuggestion entry).

(** ProfileView, line 508: [badges.filter(b => b.unlocked).length]. *)
Definition unlocked_count (badges : list Badge) : nat :=
  length (filter (fun b => Badge.unlocked b = true) badges).

(** ProfileView, line 548: [{...settings, reminderEnabled: e.target.checked}]. *)
Definition with_reminderEnabled (checked : bool) (s : UserSettings) : UserSettings :=
  {| reminderTime := reminderTime s; reminderEnabled := checked |}.

(** ProfileView, line 560: [{...settings, reminderTime: e.target.value}]. *)
Definition with_reminderTime (value : string) (s : UserSettings) : UserSettings :=
  {| reminderTime := value; reminderEnabled := reminderEnabled s |}.

(** JournalView, line 377: [initialPrompt || ...]. *)
Definition DEFAULT_PROMPT : string := "今天发生了什么让你心存感激的事？".

Definition prompt_shown (initialPrompt : option string) : string :=
  match initialPrompt with
  | Some p => if JS.truthy p then p else DEFAULT_PROMPT
  | None => DEFAULT_PROMPT
  end.

(** Lines 192 and 229: the buttons that open an empty composition. *)
Definition onWrite (st : App.state) : App.state :=
  App.setActiveTab journal (App.setViewProps None st).

(** ** A session: what a user does to the mounted application *)

Module Session.

(** A handler runs only if its control is rendered: the exercise cards on
    the exercises tab, the composition on the journal tab, the reminder
    switch on the profile tab and the time input while the reminder is
    enabled.  The navigation bar is always there.  [Compose] is a whole
    visit of the composition view, from its mount to a click on save. *)
Inductive action : Type :=
| Nav (t : Tab)
| Write
| SelectExercise (i : nat)
| Compose (evs : list JournalView.event) (clock : Clock)
| SetReminderEnabled (checked : bool)
| SetReminderTime (value : string).

Definition act (a : action) (w : Storage * App.state) : Storage * App.state :=
  let '(ls, st) := w in
  match a with
  | Nav t => (ls, App.setActiveTab t st)
  | Write => (ls, onWrite st)
  | SelectExercise i =>
      match App.activeTab st, GUIDED_EXERCISES !! i with
      | exercises, Some ex => (ls, App.handleNavigateToExercise (Exercise.prompt ex) st)
      | _, _ => w
      end
  | Compose evs clock =>
      match App.activeTab st with
      | journal => save clock (view (JournalView.run evs JournalView.start)) w
      | _ => w
      end
  | SetReminderEnabled checked =>
      match App.activeTab st with
      | profile =>
          App.settings_effect
            (ls, App.setSettings (with_reminderEnabled checked (App.settings st)) st)
      | _ => w
      end
  | SetReminderTime value =>
      match App.activeTab st with
      | profile =>
          if reminderEnabled (App.settings st) then
            App.settings_effect
              (ls, App.setSettings (with_reminderTime value (App.settings st)) st)
          else w
      | _ => w
      end
  end.

Definition run (acts : list action) (w : Storage * App.state) : Storage * App.state :=
  fold_left (fun w a => act a w) acts w.

End Session.

(** ** Invariants of a session *)

(** The badges are the four of the initial list, their flags computed from
    the entries. *)
Definition badges_agree (st : App.state) : Prop :=
  App.badges st = recompute (App.entries st) initial_badges.

(** An entry as the composition view builds them: its content is not blank,
    and a suggestion comes with a thought.  A thought can come without a
    suggestion, after an answer that has no text. *)
Definition well_formed_entry (entry : JournalEntry) : Prop :=
  ¬ JS.whitespace_only (Entry.content entry)
  ∧ (is_Some (Entry.cbtSuggestion entry) → is_Some (Entry.negativeThought entry)).

(** A prompt an entry can answer: none, or one of the guided exercises'. *)
Definition known_prompt (p : option string) : Prop :=
  p = None ∨ ∃ ex, In ex GUIDED_EXERCISES ∧ p = Some (Exercise.prompt ex).

(** What a session keeps true of the prompt and the entries. *)
Definition entries_ok (st : App.state) : Prop :=
  known_prompt (App.viewProps st)
  ∧ Forall (fun e => well_formed_entry e ∧ known_prompt (Entry.prompt e)) (App.entries st).

(** ** Reading decimal digits *)

(** The number a string of decimal digits stands for, after [acc]. *)
Fixpoint decimal_value (s : string) (acc : N) : N :=
  match s with
  | EmptyString => acc
  | String c r => decimal_value r (10 * acc + (JS.code c - 48))%N
  end.

(** ** What the serialiser writes *)

Module Printed.

(** Values without numbers: all this program writes. *)
Fixpoint number_free (v : JSON.value) : bool :=
  match v with
  | JSON.Number _ => false
  | JSON.Arr items => forallb number_free items
  | JSON.Obj members =>
      forallb (fun kv => match kv with (_, x) => number_free x end) members
  | _ => true
  end.

(** The recursion depth [JSON.parse_at] needs for a value it is given in
    printed form. *)
Fixpoint need (v : JSON.value) : nat :=
  match v with
  | JSON.Arr items =>
      S ((fix go (l : list JSON.value) : nat :=
            match l with [] => O | x :: xs => S (Nat.max (need x) (go xs)) end) items)
  | JSON.Obj members =>
      S ((fix go (l : list (string * JSON.value)) : nat :=
            match l with [] => O | (_, x) :: xs => S (Nat.max (need x) (go xs)) end)
           members)
  | _ => 1%nat
  end.

Definition need_items (l : list JSON.value) : nat :=
  (fix go (l : list JSON.value) : nat :=
     match l with [] => O | x :: xs => S (Nat.max (need x) (go xs)) end) l.

Definition need_members (l : list (string * JSON.value)) : nat :=
  (fix go (l : list (string * JSON.value)) : nat :=
     match l with [] => O | (_, x) :: xs => S (Nat.max (need x) (go xs)) end) l.

(** A member as [JSON.stringify] prints it. *)
Definition member_text (kv : string * JSON.value) : string :=
  match kv with (k, x) => JSON.quote k +:+ ":" +:+ JSON.stringify x end.

(** A text that starts with a character that is no white space and closes
    no bracket. *)
Definition opens (s : string) : Prop :=
  ∃ c r, s = String c r ∧ JSON.is_ws c = false
         ∧ JSON.at_code 93 c = false ∧ JSON.at_code 125 c = false.

End Printed.

(** ** More sample data *)

(** A visit of the composition view in which some content is typed. *)
Definition sample_visit : list event := [ChangeContent "a walk in the sun"].

(** The events up to a request in flight. *)
Definition sample_request : list event :=
  [ToggleCBT; ChangeNegativeThought sample_thought; ClickAnalyze (Normal tt)].

Definition exercises_state : App.state := App.setActiveTab exercises App.initial.

Definition profile_state : App.state := App.setActiveTab profile App.initial.

Definition later_clock : Clock :=
  {| Date_now := 1700000060000; toISOString := "2023-11-14T22:14:20.000Z" |}.

(** The abandoned composition saved a minute later. *)
Definition later_entry : JournalEntry :=
  {| Entry.id := "1700000060000"; Entry.date := "2023-11-14T22:14:20.000Z";
     Entry.content := "a walk in the sun"; Entry.mood := neutral;
     Entry.negativeThought := Some sample_thought; Entry.cbtSuggestion := Some "";
     Entry.prompt := None |}.

(** A session: an exercise answered, the reminder set, an entry with a
    failed reframing request saved. *)
Definition sample_session : list Session.action :=
  [ Session.Nav exercises; Session.SelectExercise 1;
    Session.Compose sample_visit sample_clock;
    Session.Nav profile; Session.SetReminderEnabled true;
    Session.SetReminderTime "07:30";
    Session.Write;
    Session.Compose
      [ToggleCBT; ChangeNegativeThought sample_thought; ClickAnalyze (Normal tt);
       Answer (Throw network_error); ChangeContent "tea with a friend"]
      later_clock ].

(** * Properties *)

(** ** The entry store *)

Section EntryStore.

Variables (ls : Storage) (st : App.state).

Lemma handleSaveEntry_entries (entry : JournalEntry) :
  App.entries (App.handleSaveEntry entry st) = entry :: App.entries st.
Proof. reflexivity. Qed.

Lemma entries_effect_entries :
  App.entries (snd (App.entries_effect (ls, st))) = App.entries st.
Proof. reflexivity. Qed.

Lemma onSave_entries (entry : JournalEntry) :
  App.entries (snd (App.onSave entry (ls, st))) = entry :: App.entries st.
Proof. reflexivity. Qed.

(** Every save rewrites the whole sequence under the entry-history key. *)
Lemma onSave_persists (entry : JournalEntry) :
  fst (App.onSave entry (ls, st)) !! "mm_entries"
  = Some (JSON.stringify (entries_to_json (entry :: App.entries st))).
Proof. unfold App.onSave, App.entries_effect. cbn. apply lookup_insert_eq. Qed.

End EntryStore.

(** C4.  After an append, reading the sequence finds the new entry at index 0
    and every entry stored before one index further, unchanged and in its
    prior order.  The argument needs no validity of the entry. *)
Theorem C4_append_is_at_head (ls : Storage) (st : App.state) (entry : JournalEntry) :
  let after := App.entries (snd (App.onSave entry (ls, st))) in
  after !! 0%nat = Some entry
  ∧ (∀ i : nat, after !! S i = App.entries st !! i)
  ∧ length after = S (length (App.entries st)).
Proof.
  intros after. subst after. rewrite onSave_entries.
  split; [reflexivity | split; [intros i; reflexivity | reflexivity]].
Qed.

(** ** The badge recompute *)

Lemma recompute_length (es : list JournalEntry) (bs : list Badge) :
  length (recompute es bs) = length bs.
Proof. unfold recompute. apply length_map. Qed.

Lemma recompute_static (es : list JournalEntry) (bs : list Badge) :
  map static_part (recompute es bs) = map static_part bs.
Proof.
  unfold recompute. induction bs as [|b bs IH]; [reflexivity|].
  cbn [map]. now rewrite IH.
Qed.

Lemma recompute_unlocked (es : list JournalEntry) (bs : list Badge) :
  map Badge.unlocked (recompute es bs) = map (fun b => Badge.condition b es) bs.
Proof.
  unfold recompute. induction bs as [|b bs IH]; [reflexivity|].
  cbn [map]. now rewrite IH.
Qed.

(** A recompute forgets the flags it finds: only the static parts of the
    previous list matter. *)
Lemma recompute_from_static (es : list JournalEntry) (bs bs' : list Badge) :
  map static_part bs = map static_part bs' → recompute es bs = recompute es bs'.
Proof.
  revert bs'. induction bs as [|b bs IH]; intros [|b' bs'] H; try discriminate; [reflexivity|].
  cbn [map] in H. unfold static_part at 1 3 in H.
  injection H as Hid Hname Hdescr Hicon Hcond Hrest.
  unfold recompute in *. cbn [map]. rewrite (IH _ Hrest).
  now rewrite Hid, Hname, Hdescr, Hicon, Hcond.
Qed.

(** C10.  The recompute run after a change of the entry history leaves the
    badge list's length and order alone and, badge by badge, the id, name,
    description, icon and condition; it touches nothing else of the
    application state. *)
Theorem C10_recompute_changes_only_unlocked (ls : Storage) (st : App.state) :
  let st' := snd (App.entries_effect (ls, st)) in
  length (App.badges st') = length (App.badges st)
  ∧ map static_part (App.badges st') = map static_part (App.badges st)
  ∧ map Badge.unlocked (App.badges st')
    = map (fun b => Badge.condition b (App.entries st)) (App.badges st)
  ∧ App.entries st' = App.entries st
  ∧ App.settings st' = App.settings st
  ∧ App.activeTab st' = App.activeTab st
  ∧ App.viewProps st' = App.viewProps st.
Proof.
  intros st'. subst st'. cbn.
  split; [apply recompute_length|].
  split; [apply recompute_static|].
  split; [apply recompute_unlocked|].
  repeat split.
Qed.

(** ** The badge conditions *)

Lemma cbt_explorer_condition_spec (es : list JournalEntry) :
  cbt_explorer_condition es = true
  ↔ ∃ e s, In e es ∧ Entry.cbtSuggestion e = Some s ∧ s ≠ "".
Proof.
  unfold cbt_explorer_condition. rewrite existsb_exists. split.
  - intros (e & Hin & Ht). destruct (Entry.cbtSuggestion e) as [s|] eqn:Hs; [|discriminate].
    exists e, s. split; [assumption|]. split; [assumption|]. intros ->. discriminate.
  - intros (e & s & Hin & Hs & Hne). exists e. split; [assumption|].
    rewrite Hs. destruct s; [congruence | reflexivity].
Qed.

(** The unlocked ids after a recompute of the four badges, spelled out. *)
Lemma unlocked_ids_initial (es : list JournalEntry) :
  unlocked_ids (recompute es initial_badges)
  = ((if first_step_condition es then ["first_step"] else [])
     ++ (if streak_3_condition es then ["streak_3"] else [])
     ++ (if cbt_explorer_condition es then ["cbt_explorer"] else [])
     ++ (if master_10_condition es then ["master_10"] else []))%list.
Proof.
  unfold unlocked_ids, recompute, initial_badges. cbn [map Badge.condition Badge.id
    Badge.name Badge.description Badge.icon].
  destruct (first_step_condition es), (streak_3_condition es),
    (cbt_explorer_condition es), (master_10_condition es); reflexivity.
Qed.

Lemma cbt_explorer_unlocked (es : list JournalEntry) :
  In "cbt_explorer" (unlocked_ids (recompute es initial_badges))
  ↔ cbt_explorer_condition es = true.
Proof.
  rewrite unlocked_ids_initial.
  destruct (first_step_condition es), (streak_3_condition es),
    (cbt_explorer_condition es), (master_10_condition es); cbn;
    split; intros H; try reflexivity; try discriminate; intuition discriminate.
Qed.

(** C5.  The reframing-explorer badge is unlocked exactly when some entry
    carries a non-empty suggestion; entries with a negative thought and an
    absent or empty suggestion do not unlock it. *)
Theorem C5_reframing_explorer (es : list JournalEntry) :
  (In "cbt_explorer" (unlocked_ids (recompute es initial_badges))
   ↔ ∃ e s, In e es ∧ Entry.cbtSuggestion e = Some s ∧ s ≠ "")
  ∧ ((∀ e, In e es →
        is_Some (Entry.negativeThought e)
        ∧ (Entry.cbtSuggestion e = None ∨ Entry.cbtSuggestion e = Some ""))
     → ¬ In "cbt_explorer" (unlocked_ids (recompute es initial_badges))).
Proof.
  split.
  - rewrite cbt_explorer_unlocked. apply cbt_explorer_condition_spec.
  - intros Hall. rewrite cbt_explorer_unlocked, cbt_explorer_condition_spec.
    intros (e & s & Hin & Hs & Hne).
    destruct (Hall e Hin) as [_ [Hnone | Hempty]]; congruence.
Qed.

(** C9.  No entries: no badge.  One entry without a suggestion (absent or
    empty): the first-entry badge alone.  Ten entries: the first-entry,
    three-day-streak and ten-entries badges. *)
Theorem C9_badges_by_history_length :
  unlocked_ids (recompute [] initial_badges) = []
  ∧ (∀ e : JournalEntry,
       JS.truthy_opt (Entry.cbtSuggestion e) = false →
       unlocked_ids (recompute [e] initial_badges) = ["first_step"])
  ∧ (∀ es : list JournalEntry,
       length es = 10%nat →
       let ids := unlocked_ids (recompute es initial_badges) in
       In "first_step" ids ∧ In "streak_3" ids ∧ In "master_10" ids).
Proof.
  split; [reflexivity|]. split.
  - intros e He. rewrite unlocked_ids_initial.
    unfold cbt_explorer_condition. cbn. now rewrite He.
  - intros es Hlen ids. subst ids. rewrite unlocked_ids_initial.
    unfold first_step_condition, streak_3_condition, master_10_condition.
    rewrite Hlen. cbn.
    destruct (cbt_explorer_condition es); cbn; intuition.
Qed.

Lemma C9_witness :
  unlocked_ids (recompute [entry_without_suggestion] initial_badges) = ["first_step"]
  ∧ In "master_10"
      (unlocked_ids (recompute (repeat entry_without_suggestion 10) initial_badges)).
Proof.
  split.
  - apply (proj1 (proj2 C9_badges_by_history_length) entry_without_suggestion).
    reflexivity.
  - apply (proj2 (proj2 C9_badges_by_history_length) (repeat entry_without_suggestion 10)).
    reflexivity.
Defined.

Lemma C5_witness :
  is_Some (Entry.negativeThought entry_without_suggestion)
  ∧ ¬ In "cbt_explorer"
        (unlocked_ids (recompute [entry_without_suggestion] initial_badges)).
Proof.
  split; [eexists; reflexivity|].
  apply (proj2 (C5_reframing_explorer [entry_without_suggestion])).
  intros e [<- | []]. split; [eexists; reflexivity | left; reflexivity].
Defined.

(** ** White space and [trim] *)

Lemma trimStart_whitespace (cp : N) (s : string) :
  In cp JS.whitespace_code_points → JS.trimStart (JS.utf8 cp +:+ s) = JS.trimStart s.
Proof.
  unfold JS.whitespace_code_points. cbn [In]. intros H.
  repeat (destruct H as [<- | H]; [reflexivity|]). contradiction.
Qed.

Lemma whitespace_only_trimStart (s : string) :
  JS.whitespace_only s → JS.trimStart s = "".
Proof.
  induction 1 as [|cp s Hcp _ IH]; [reflexivity|].
  now rewrite trimStart_whitespace.
Qed.

Lemma whitespace_only_trim (s : string) : JS.whitespace_only s → JS.trim s = "".
Proof. intros H. unfold JS.trim. now rewrite whitespace_only_trimStart. Qed.

(** *** Appending and reversing strings *)

Lemma append_cons (x : ascii) (a b : string) : String x a +:+ b = String x (a +:+ b).
Proof. reflexivity. Qed.

Lemma append_assoc (a b c : string) : (a +:+ b) +:+ c = a +:+ (b +:+ c).
Proof. induction a as [|x a IH]; [reflexivity|]. now rewrite !append_cons, IH. Qed.

Lemma append_empty_r (a : string) : a +:+ "" = a.
Proof. induction a as [|x a IH]; [reflexivity|]. now rewrite append_cons, IH. Qed.

Lemma rev_app_append (s acc : string) :
  String.rev_app s acc = String.rev_app s "" +:+ acc.
Proof.
  revert acc. induction s as [|x s IH]; intros acc; [reflexivity|].
  cbn. rewrite (IH (String x acc)), (IH (String x "")), append_assoc. reflexivity.
Qed.

Lemma rev_cons (x : ascii) (s : string) :
  String.rev (String x s) = String.rev s +:+ String x "".
Proof. unfold String.rev. cbn. apply rev_app_append. Qed.

Lemma rev_append (a b : string) : String.rev (a +:+ b) = String.rev b +:+ String.rev a.
Proof.
  induction a as [|x a IH].
  - change ("" +:+ b) with b. now rewrite append_empty_r.
  - rewrite append_cons, !rev_cons, IH, append_assoc. reflexivity.
Qed.

Lemma rev_involutive (s : string) : String.rev (String.rev s) = s.
Proof.
  induction s as [|x s IH]; [reflexivity|].
  rewrite rev_cons, rev_append, IH. reflexivity.
Qed.

Lemma rev_empty (s : string) : String.rev s = "" → s = "".
Proof. intros H. rewrite <- (rev_involutive s), H. reflexivity. Qed.

Lemma whitespace_only_app (p s : string) :
  JS.whitespace_only p → JS.whitespace_only s → JS.whitespace_only (p +:+ s).
Proof.
  induction 1 as [|cp p Hcp _ IH]; intros Hs; [exact Hs|].
  rewrite append_assoc. apply JS.ws_more; auto.
Qed.

(** *** The scan's patterns and the listed code points *)

(** Membership of a numeral in a list of numerals. *)
Ltac listed := vm_compute; repeat first [left; reflexivity | right].

Lemma code_chr (a : ascii) (n : N) : JS.code a = n → a = JS.chr n.
Proof. intros <-. symmetry. apply ascii_N_embedding. Qed.

(** Each pattern of the scan is the encoding of a listed code point. *)
Lemma ws1_code_point (a : ascii) :
  JS.ws1 a = true →
  ∃ cp, In cp JS.whitespace_code_points ∧ JS.utf8 cp = String a "".
Proof.
  unfold JS.ws1. intros H.
  assert (Hn : (JS.code a = 9 ∨ JS.code a = 10 ∨ JS.code a = 11 ∨ JS.code a = 12
                ∨ JS.code a = 13 ∨ JS.code a = 32)%N).
  { apply orb_true_iff in H as [H | H].
    - apply andb_true_iff in H as [H1 H2].
      apply N.leb_le in H1, H2. lia.
    - apply N.eqb_eq in H. lia. }
  exists (JS.code a).
  destruct Hn as [Hn | [Hn | [Hn | [Hn | [Hn | Hn]]]]];
    rewrite (code_chr a _ Hn); (split; [listed | reflexivity]).
Qed.

Lemma ws2_code_point (a b : ascii) :
  JS.ws2 a b = true →
  ∃ cp, In cp JS.whitespace_code_points ∧ JS.utf8 cp = String a (String b "").
Proof.
  unfold JS.ws2. intros H. apply andb_true_iff in H as [Ha Hb].
  apply N.eqb_eq in Ha, Hb.
  rewrite (code_chr a _ Ha), (code_chr b _ Hb).
  exists 0xA0%N. split; [listed | reflexivity].
Qed.

Lemma ws3_code_point (a b c : ascii) :
  JS.ws3 a b c = true →
  ∃ cp, In cp JS.whitespace_code_points
        ∧ JS.utf8 cp = String a (String b (String c "")).
Proof.
  unfold JS.ws3. cbn zeta. intros H.
  repeat rewrite ?orb_true_iff, ?andb_true_iff, ?N.eqb_eq, ?N.leb_le in H.
  assert (Hk : ∃ x y z : N, JS.code a = x ∧ JS.code b = y ∧ JS.code c = z
      ∧ ((x, y, z) = (0xE1, 0x9A, 0x80)
         ∨ (x = 0xE2 ∧ y = 0x80 ∧ (0x80 ≤ z ≤ 0x8A ∨ z = 0xA8 ∨ z = 0xA9 ∨ z = 0xAF))
         ∨ (x, y, z) = (0xE2, 0x81, 0x9F)
         ∨ (x, y, z) = (0xE3, 0x80, 0x80)
         ∨ (x, y, z) = (0xEF, 0xBB, 0xBF))%N).
  { exists (JS.code a), (JS.code b), (JS.code c). repeat split.
    destruct H as [[[[H | H] | H] | H] | H].
    - left. destruct H as [[-> ->] ->]. reflexivity.
    - right. left. destruct H as [[-> ->] H]. repeat split.
      destruct H as [[[H | H] | H] | H]; [left; lia | auto..].
    - do 2 right. left. destruct H as [[-> ->] ->]. reflexivity.
    - do 3 right. left. destruct H as [[-> ->] ->]. reflexivity.
    - do 4 right. destruct H as [[-> ->] ->]. reflexivity. }
  destruct Hk as (x & y & z & Ha & Hb & Hc & Hcases).
  rewrite (code_chr a _ Ha), (code_chr b _ Hb), (code_chr c _ Hc).
  destruct Hcases as [[= -> -> ->] | [(-> & -> & Hz) | [[= -> -> ->] | [[= -> -> ->] | [= -> -> ->]]]]].
  - exists 0x1680%N. split; [listed | reflexivity].
  - assert (Hz' : (z = 0x80 ∨ z = 0x81 ∨ z = 0x82 ∨ z = 0x83 ∨ z = 0x84 ∨ z = 0x85
                   ∨ z = 0x86 ∨ z = 0x87 ∨ z = 0x88 ∨ z = 0x89 ∨ z = 0x8A
                   ∨ z = 0xA8 ∨ z = 0xA9 ∨ z = 0xAF)%N) by lia.
    exists (0x2000 + (z - 0x80))%N.
    repeat (destruct Hz' as [-> | Hz']; [split; [listed | reflexivity]|]).
    rewrite Hz'. split; [listed | reflexivity].
  - exists 0x205F%N. split; [listed | reflexivity].
  - exists 0x3000%N. split; [listed | reflexivity].
  - exists 0xFEFF%N. split; [listed | reflexivity].
Qed.

Lemma whitespace_char (cp : N) :
  In cp JS.whitespace_code_points → JS.whitespace_only (JS.utf8 cp).
Proof.
  intros H. rewrite <- (append_empty_r (JS.utf8 cp)). apply JS.ws_more; [assumption | apply JS.ws_empty].
Qed.

(** [trimStart] removes a prefix of white space and nothing else. *)
Lemma trimStart_split_bounded (n : nat) (s : string) :
  (String.length s ≤ n)%nat →
  ∃ p, JS.whitespace_only p ∧ s = p +:+ JS.trimStart s.
Proof.
  revert s. induction n as [|n IH]; intros s Hlen.
  - destruct s; [|cbn in Hlen; lia]. exists "". split; [apply JS.ws_empty | reflexivity].
  - destruct s as [|a r]; [exists ""; split; [apply JS.ws_empty | reflexivity]|].
    cbn in Hlen. cbn [JS.trimStart]. destruct (JS.ws1 a) eqn:H1.
    { destruct (ws1_code_point a H1) as (cp & Hcp & Hu).
      destruct (IH r) as (p & Hp & Hr); [lia|].
      exists (JS.utf8 cp +:+ p). split; [apply JS.ws_more; assumption|].
      rewrite Hu. change (String a r = String a (p +:+ JS.trimStart r)). now rewrite <- Hr. }
    destruct r as [|b r2]; [exists ""; split; [apply JS.ws_empty | reflexivity]|].
    cbn in Hlen. destruct (JS.ws2 a b) eqn:H2.
    { destruct (ws2_code_point a b H2) as (cp & Hcp & Hu).
      destruct (IH r2) as (p & Hp & Hr); [lia|].
      exists (JS.utf8 cp +:+ p). split; [apply JS.ws_more; assumption|].
      rewrite Hu. change (String a (String b r2) = String a (String b (p +:+ JS.trimStart r2))).
      now rewrite <- Hr. }
    destruct r2 as [|c r3]; [exists ""; split; [apply JS.ws_empty | reflexivity]|].
    cbn in Hlen. destruct (JS.ws3 a b c) eqn:H3.
    { destruct (ws3_code_point a b c H3) as (cp & Hcp & Hu).
      destruct (IH r3) as (p & Hp & Hr); [lia|].
      exists (JS.utf8 cp +:+ p). split; [apply JS.ws_more; assumption|].
      rewrite Hu.
      change (String a (String b (String c r3))
              = String a (String b (String c (p +:+ JS.trimStart r3)))).
      now rewrite <- Hr. }
    exists "". split; [apply JS.ws_empty | reflexivity].
Qed.

(** If the scan from the end removes everything, everything was white space. *)
Lemma trimStart_rev_empty_bounded (n : nat) (u : string) :
  (String.length u ≤ n)%nat →
  JS.trimStart_rev u = "" → JS.whitespace_only (String.rev u).
Proof.
  revert u. induction n as [|n IH]; intros u Hlen.
  - destruct u; [|cbn in Hlen; lia]. intros _. apply JS.ws_empty.
  - destruct u as [|c r]; [intros _; apply JS.ws_empty|].
    cbn in Hlen. cbn [JS.trimStart_rev]. destruct (JS.ws1 c) eqn:H1.
    { intros H. destruct (ws1_code_point c H1) as (cp & Hcp & Hu).
      rewrite rev_cons, <- Hu.
      apply whitespace_only_app; [apply IH; [lia | assumption]|].
      now apply whitespace_char. }
    destruct r as [|b r2]; [discriminate|].
    cbn in Hlen. destruct (JS.ws2 b c) eqn:H2.
    { intros H. destruct (ws2_code_point b c H2) as (cp & Hcp & Hu).
      rewrite !rev_cons, append_assoc, !append_cons.
      change ("" +:+ String c "") with (String c ""). rewrite <- Hu.
      apply whitespace_only_app; [apply IH; [lia | assumption]|].
      now apply whitespace_char. }
    destruct r2 as [|a r3]; [discriminate|].
    cbn in Hlen. destruct (JS.ws3 a b c) eqn:H3; [|discriminate].
    intros H. destruct (ws3_code_point a b c H3) as (cp & Hcp & Hu).
    rewrite !rev_cons, !append_assoc, !append_cons.
    change ("" +:+ String c "") with (String c "").
    change ("" +:+ String b (String c "")) with (String b (String c "")).
    rewrite <- Hu.
    apply whitespace_only_app; [apply IH; [lia | assumption]|].
    now apply whitespace_char.
Qed.

Lemma trim_empty_whitespace_only (s : string) : JS.trim s = "" → JS.whitespace_only s.
Proof.
  unfold JS.trim, JS.trimEnd. intros H.
  apply rev_empty, (trimStart_rev_empty_bounded _ _ (le_n _)) in H.
  rewrite rev_involutive in H.
  destruct (trimStart_split_bounded _ s (le_n _)) as (p & Hp & Hs).
  rewrite Hs. now apply whitespace_only_app.
Qed.

Lemma trim_empty_iff (s : string) : JS.trim s = "" ↔ JS.whitespace_only s.
Proof. split; [apply trim_empty_whitespace_only | apply whitespace_only_trim]. Qed.

(** ** Committing a composition *)

Section Submit.

Variables (clock : JournalView.Clock) (initialPrompt : option string).

Lemma handleSubmit_blank (c : JournalView.state) :
  JS.trim (JournalView.content c) = "" →
  JournalView.handleSubmit clock initialPrompt c = None.
Proof. intros H. unfold JournalView.handleSubmit. now rewrite H. Qed.

Lemma handleSubmit_entry (c : JournalView.state) (entry : JournalEntry) :
  JournalView.handleSubmit clock initialPrompt c = Some entry →
  JS.trim (JournalView.content c) ≠ ""
  ∧ Entry.content entry = JournalView.content c
  ∧ Entry.mood entry = JournalView.mood c
  ∧ Entry.negativeThought entry
    = (if JournalView.showCBT c then Some (JournalView.negativeThought c) else None)
  ∧ Entry.cbtSuggestion entry
    = (if JournalView.showCBT c then JournalView.aiSuggestion c else None)
  ∧ Entry.prompt entry = initialPrompt.
Proof.
  unfold JournalView.handleSubmit.
  destruct (JS.trim (JournalView.content c)) eqn:Ht; cbn; [discriminate|].
  intros [= <-]. cbn. repeat split. discriminate.
Qed.

Lemma clickSave_handleSubmit (c : JournalView.state) :
  JournalView.clickSave clock initialPrompt c
  = JournalView.handleSubmit clock initialPrompt c.
Proof.
  unfold JournalView.clickSave, JournalView.handleSubmit.
  now destruct (JS.truthy (JS.trim (JournalView.content c))).
Qed.

(** The handler returns early exactly on blank content. *)
Lemma handleSubmit_none_iff (c : JournalView.state) :
  JournalView.handleSubmit clock initialPrompt c = None
  ↔ JS.whitespace_only (JournalView.content c).
Proof.
  rewrite <- trim_empty_iff. unfold JournalView.handleSubmit.
  destruct (JS.trim (JournalView.content c)); cbn; split; congruence.
Qed.

End Submit.

(** C6, as the code has it.  An entry saved from the composition view gets
    both fields only while the reframing panel is open: [negativeThought] is
    then the text in the thought box, possibly empty, and [cbtSuggestion]
    the suggestion the view holds, absent after an answer without text and
    empty when none was requested.  So a set [cbtSuggestion] implies a set
    [negativeThought]; the converse does not hold. *)
Theorem C6_suggestion_set_implies_thought_set
    (clock : JournalView.Clock) (initialPrompt : option string)
    (c : JournalView.state) (entry : JournalEntry) :
  JournalView.clickSave clock initialPrompt c = Some entry →
  Entry.negativeThought entry
  = (if JournalView.showCBT c then Some (JournalView.negativeThought c) else None)
  ∧ Entry.cbtSuggestion entry
    = (if JournalView.showCBT c then JournalView.aiSuggestion c else None)
  ∧ (is_Some (Entry.cbtSuggestion entry) → is_Some (Entry.negativeThought entry)).
Proof.
  rewrite clickSave_handleSubmit. intros H.
  destruct (handleSubmit_entry _ _ _ _ H) as (_ & _ & _ & Hn & Hs & _).
  split; [exact Hn|]. split; [exact Hs|].
  rewrite Hn, Hs. destruct (JournalView.showCBT c); intros [x Hx];
    [eexists; reflexivity | discriminate].
Qed.

(** Content that is not blank is saved: the entry goes to the head of the
    sequence with the content and mood of the view. *)
Lemma save_stores_entry
    (clock : JournalView.Clock) (c : JournalView.state) (w : Storage * App.state) :
  ¬ JS.whitespace_only (JournalView.content c) →
  ∃ entry,
    JournalView.clickSave clock (App.viewProps (snd w)) c = Some entry
    ∧ Entry.content entry = JournalView.content c
    ∧ Entry.mood entry = JournalView.mood c
    ∧ App.entries (snd (save clock c w)) = entry :: App.entries (snd w).
Proof.
  intros Hnot. unfold save. rewrite clickSave_handleSubmit.
  destruct (JournalView.handleSubmit clock (App.viewProps (snd w)) c) as [entry|] eqn:Hs.
  - exists entry. destruct (handleSubmit_entry _ _ _ _ Hs) as (_ & Hc & Hm & _).
    destruct w as [ls st]. repeat split; assumption.
  - now apply handleSubmit_none_iff in Hs.
Qed.

(** C8.  With empty or white-space-only content, a save hands no entry to
    the store: the handler returns before building one, and the storage and
    the application state, entry sequence included, stay as they were. *)
Theorem C8_blank_content_is_not_saved
    (clock : JournalView.Clock) (c : JournalView.state) (w : Storage * App.state) :
  JS.whitespace_only (JournalView.content c) →
  JournalView.handleSubmit clock (App.viewProps (snd w)) c = None
  ∧ JournalView.clickSave clock (App.viewProps (snd w)) c = None
  ∧ save clock c w = w.
Proof.
  intros Hws. apply whitespace_only_trim in Hws.
  assert (Hnone : JournalView.handleSubmit clock (App.viewProps (snd w)) c = None)
    by now apply handleSubmit_blank.
  split; [assumption|]. unfold save. rewrite clickSave_handleSubmit, Hnone. now split.
Qed.

(** ** The reframing pipeline *)

Lemma handleAnalyzeCBT_empty_thought (sdk : Completion unit) (w : world) :
  JS.truthy (negativeThought (view w)) = false →
  handleAnalyzeCBT sdk w = (Settled (Normal tt), w).
Proof. intros H. unfold handleAnalyzeCBT. now rewrite H. Qed.

Lemma handleAnalyzeCBT_sent (w : world) :
  JS.truthy (negativeThought (view w)) = true →
  handleAnalyzeCBT (Normal tt) w
  = (Suspended, send (request (view w)) (on_view (setIsAnalysing true) w)).
Proof. intros H. unfold handleAnalyzeCBT. now rewrite H. Qed.

Lemma handleAnalyzeCBT_threw (e : JsError) (w : world) :
  JS.truthy (negativeThought (view w)) = true →
  handleAnalyzeCBT (Throw e) w
  = (Settled (Normal tt),
     {| view := setIsAnalysing false (setAiSuggestion (Some FALLBACK_SUGGESTION) (view w));
        in_flight := in_flight w;
        console := console w ++ [e] |}).
Proof. intros H. unfold handleAnalyzeCBT. rewrite H. reflexivity. Qed.

Lemma resume_rejected (e : JsError) (w : world) :
  handleAnalyzeCBT_resume (Throw e) w
  = (Normal tt,
     {| view := setIsAnalysing false (setAiSuggestion (Some FALLBACK_SUGGESTION) (view w));
        in_flight := in_flight w;
        console := console w ++ [e] |}).
Proof. reflexivity. Qed.

Lemma resume_fulfilled (r : GenerateContentResponse) (w : world) :
  handleAnalyzeCBT_resume (Normal r) w
  = (Normal tt,
     {| view := setIsAnalysing false (setAiSuggestion (text r) (view w));
        in_flight := in_flight w;
        console := console w |}).
Proof. reflexivity. Qed.

Lemma click_disabled (sdk : Completion unit) (w : world) :
  analyze_button_enabled (view w) = false → step (ClickAnalyze sdk) w = w.
Proof. intros H. cbn. now rewrite H. Qed.

Lemma step_in_flight_matches (ev : event) (w : world) :
  in_flight_matches w → in_flight_matches (step ev w).
Proof.
  unfold in_flight_matches. intros Hw. destruct ev as [s|m| |s|sdk| |o]; cbn.
  - exact Hw.
  - exact Hw.
  - exact Hw.
  - destruct (showCBT (view w)); exact Hw.
  - unfold analyze_button_enabled.
    destruct (showCBT (view w)); [|exact Hw].
    destruct (JS.truthy_opt (aiSuggestion (view w))); [exact Hw|].
    destruct (isAnalysing (view w)) eqn:Hbusy; [cbn; now rewrite Hbusy|].
    destruct (JS.truthy (negativeThought (view w))) eqn:Hthought; cbn;
      [|now rewrite Hbusy].
    destruct sdk as [[]|e].
    + rewrite handleAnalyzeCBT_sent by assumption. cbn.
      rewrite length_app, Hw. reflexivity.
    + rewrite handleAnalyzeCBT_threw by assumption. cbn. exact Hw.
  - destruct (showCBT (view w) && JS.truthy_opt (aiSuggestion (view w))); exact Hw.
  - destruct (in_flight w) as [|r rest] eqn:Hfl; [now rewrite Hfl|].
    assert (rest = []) as ->.
    { destruct (isAnalysing (view w)); cbn in Hw; [|discriminate].
      destruct rest; [reflexivity | discriminate]. }
    destruct o as [r'|e]; reflexivity.
Qed.

Lemma run_in_flight_matches (evs : list event) (w : world) :
  in_flight_matches w → in_flight_matches (run evs w).
Proof.
  revert w. induction evs as [|ev evs IH]; intros w Hw; [exact Hw|].
  cbn. apply IH, step_in_flight_matches, Hw.
Qed.

(** C7.  A request leaves only when the negative thought is non-empty: with
    an empty one the handler returns at once and the click does nothing,
    and a click that sends a request takes the pipeline from Ready to
    Requesting.  While a request is in flight (the pipeline is Requesting) a click on the
    analyse button changes nothing and sends nothing.  Whatever the user and
    the service do to a view, at most one request is in flight. *)
Theorem C7_one_request_in_flight :
  (∀ (sdk : Completion unit) (w : world),
     JS.truthy (negativeThought (view w)) = false →
     handleAnalyzeCBT sdk w = (Settled (Normal tt), w)
     ∧ step (ClickAnalyze sdk) w = w)
  ∧ (∀ (sdk : Completion unit) (w : world),
       in_flight (step (ClickAnalyze sdk) w) ≠ in_flight w →
       pipeline (view w) = Ready
       ∧ pipeline (view (step (ClickAnalyze sdk) w)) = Requesting)
  ∧ (∀ (sdk : Completion unit) (w : world),
       pipeline (view w) = Requesting → step (ClickAnalyze sdk) w = w)
  ∧ (∀ evs : list event, (length (in_flight (run evs start)) ≤ 1)%nat).
Proof.
  split; [|split; [|split]].
  - intros sdk w H. split; [now apply handleAnalyzeCBT_empty_thought|].
    apply click_disabled. unfold analyze_button_enabled. rewrite H.
    cbn. now rewrite orb_true_r, andb_false_r.
  - intros sdk w Hsent.
    destruct (analyze_button_enabled (view w)) eqn:Hon;
      [|now rewrite click_disabled in Hsent].
    unfold analyze_button_enabled in Hon.
    apply andb_true_iff in Hon as [Hon Hfree].
    apply andb_true_iff in Hon as [_ Hnone].
    apply negb_true_iff, orb_false_iff in Hfree as [Hidle Hthought].
    apply negb_true_iff in Hnone. apply negb_false_iff in Hthought.
    split; [unfold pipeline; now rewrite Hidle, Hnone, Hthought|].
    revert Hsent. cbn [step]. unfold analyze_button_enabled.
    destruct (showCBT (view w) && negb (JS.truthy_opt (aiSuggestion (view w)))
              && negb (isAnalysing (view w) || negb (JS.truthy (negativeThought (view w)))));
      [|congruence].
    destruct sdk as [[]|e].
    + rewrite handleAnalyzeCBT_sent by assumption. reflexivity.
    + rewrite handleAnalyzeCBT_threw by assumption. cbn. congruence.
  - intros sdk w H. apply click_disabled. unfold analyze_button_enabled.
    unfold pipeline in H. destruct (isAnalysing (view w)).
    + cbn. apply andb_false_r.
    + destruct (JS.truthy_opt (aiSuggestion (view w))),
        (JS.truthy (negativeThought (view w))); discriminate.
  - intros evs.
    assert (H : in_flight_matches (run evs start))
      by (apply run_in_flight_matches; reflexivity).
    unfold in_flight_matches in H. rewrite H.
    destruct (isAnalysing (view (run evs start))); lia.
Qed.

(** C2.  With a non-empty negative thought, a failed request ends in
    Resolved with the fixed fallback text, and the handler's promise is
    fulfilled, never rejected: whether the client throws before the request
    leaves, or the request is rejected later, whatever the view has become
    by then. *)
Theorem C2_failure_stores_fallback (w : world) (e : JsError) :
  JS.truthy (negativeThought (view w)) = true →
  (fst (handleAnalyzeCBT (Throw e) w) = Settled (Normal tt)
   ∧ aiSuggestion (view (snd (handleAnalyzeCBT (Throw e) w)))
     = Some FALLBACK_SUGGESTION
   ∧ pipeline (view (snd (handleAnalyzeCBT (Throw e) w))) = Resolved)
  ∧ fst (handleAnalyzeCBT (Normal tt) w) = Suspended
  ∧ (∀ w1 : world,
       fst (handleAnalyzeCBT_resume (Throw e) w1) = Normal tt
       ∧ aiSuggestion (view (snd (handleAnalyzeCBT_resume (Throw e) w1)))
         = Some FALLBACK_SUGGESTION
       ∧ pipeline (view (snd (handleAnalyzeCBT_resume (Throw e) w1))) = Resolved).
Proof.
  intros H. split; [|split].
  - rewrite handleAnalyzeCBT_threw by assumption. repeat split.
  - now rewrite handleAnalyzeCBT_sent.
  - intros w1. rewrite resume_rejected. repeat split.
Qed.

(** C3, as the code has it.  With a non-empty negative thought, a request
    answered with text T ends with exactly T stored, untrimmed and
    unchecked, the analysis flag cleared and the promise fulfilled; the
    pipeline is then Resolved when T is not empty.  An answer without text
    is stored as it is too: the suggestion is then absent. *)
Theorem C3_success_stores_text_verbatim (w : world) (r : GenerateContentResponse) :
  JS.truthy (negativeThought (view w)) = true →
  fst (handleAnalyzeCBT (Normal tt) w) = Suspended
  ∧ (∀ w1 : world,
       fst (handleAnalyzeCBT_resume (Normal r) w1) = Normal tt
       ∧ aiSuggestion (view (snd (handleAnalyzeCBT_resume (Normal r) w1))) = text r
       ∧ isAnalysing (view (snd (handleAnalyzeCBT_resume (Normal r) w1))) = false
       ∧ (∀ T, text r = Some T → T ≠ "" →
          pipeline (view (snd (handleAnalyzeCBT_resume (Normal r) w1))) = Resolved)).
Proof.
  intros H. split; [now rewrite handleAnalyzeCBT_sent|].
  intros w1. rewrite resume_fulfilled. cbn. repeat split.
  intros T HT Hne. unfold pipeline. cbn. rewrite HT.
  destruct T; [congruence | reflexivity].
Qed.

(** ** Hydration *)

Section HydrationFacts.

Variable parse : string → Completion JSON.value.
Variables (ls : Storage) (st : App.state).

Lemma load_entries_absent :
  ls !! "mm_entries" = None → App.load_entries parse ls st = App.Completed st.
Proof. intros H. unfold App.load_entries. now rewrite H. Qed.

Lemma load_entries_empty :
  ls !! "mm_entries" = Some "" → App.load_entries parse ls st = App.Completed st.
Proof. intros H. unfold App.load_entries. now rewrite H. Qed.

Lemma load_entries_rejected (saved : string) (e : JsError) :
  ls !! "mm_entries" = Some saved → saved ≠ "" → parse saved = Throw e →
  App.load_entries parse ls st = App.Uncaught e.
Proof.
  intros H Hne Hp. unfold App.load_entries. rewrite H.
  destruct saved; [congruence|]. cbn. now rewrite Hp.
Qed.

Lemma load_entries_loaded (saved : string) (v : JSON.value) (es : list JournalEntry) :
  ls !! "mm_entries" = Some saved → saved ≠ "" → parse saved = Normal v →
  as_entries v = Some es →
  App.load_entries parse ls st = App.Completed (App.setEntries es st).
Proof.
  intros H Hne Hp Hv. unfold App.load_entries. rewrite H.
  destruct saved; [congruence|]. cbn. now rewrite Hp, Hv.
Qed.

Lemma load_settings_absent :
  ls !! "mm_settings" = None → App.load_settings parse ls st = App.Completed st.
Proof. intros H. unfold App.load_settings. now rewrite H. Qed.

End HydrationFacts.

Lemma load_entries_outside_types
    (parse : string → Completion JSON.value) (ls : Storage) (st : App.state)
    (saved : string) (v : JSON.value) :
  ls !! "mm_entries" = Some saved → saved ≠ "" → parse saved = Normal v →
  as_entries v = None →
  App.load_entries parse ls st = App.OutsideTypes "mm_entries" v.
Proof.
  intros H Hne Hp Hv. unfold App.load_entries. rewrite H.
  destruct saved; [congruence|]. cbn. now rewrite Hp, Hv.
Qed.

(** C1, as the code has it.  When the entry-history key is absent or holds
    the empty string, reading it throws nothing and leaves the entry store
    as it is, the empty sequence at startup; the startup effect then is
    what reading the settings key does.  When the key holds text that
    [JSON.parse] rejects, the exception leaves the startup effect uncaught
    and the store is never set.  When it holds JSON that is no entry
    sequence, the parsed value goes to the setter unchecked. *)
Theorem C1_hydration_absent_or_rejected
    (parse : string → Completion JSON.value) (ls : Storage) :
  (ls !! "mm_entries" = None ∨ ls !! "mm_entries" = Some "" →
     App.load_entries parse ls App.initial = App.Completed App.initial
     ∧ App.entries App.initial = []
     ∧ App.hydration_effect parse ls App.initial
       = App.load_settings parse ls App.initial)
  ∧ (∀ (saved : string) (e : JsError),
       ls !! "mm_entries" = Some saved → saved ≠ "" → parse saved = Throw e →
       App.hydration_effect parse ls App.initial = App.Uncaught e)
  ∧ (∀ (saved : string) (v : JSON.value),
       ls !! "mm_entries" = Some saved → saved ≠ "" → parse saved = Normal v →
       as_entries v = None →
       App.hydration_effect parse ls App.initial = App.OutsideTypes "mm_entries" v).
Proof.
  split; [|split].
  - intros H.
    assert (Hload : App.load_entries parse ls App.initial = App.Completed App.initial)
      by (destruct H; [now apply load_entries_absent | now apply load_entries_empty]).
    split; [assumption|]. split; [reflexivity|].
    unfold App.hydration_effect. now rewrite Hload.
  - intros saved e H Hne Hp. unfold App.hydration_effect.
    now rewrite (load_entries_rejected parse ls App.initial saved e).
  - intros saved v H Hne Hp Hv. unfold App.hydration_effect.
    now rewrite (load_entries_outside_types parse ls App.initial saved v).
Qed.

(** ** The model at work *)

Example trim_ascii : JS.trim (nl +:+ "  hi there " +:+ nl) = "hi there".
Proof. reflexivity. Qed.

Example trim_ideographic_space :
  JS.trim (JS.utf8 0x3000 +:+ "a" +:+ JS.utf8 0xA0) = "a".
Proof. reflexivity. Qed.

Example trim_keeps_inner_space : JS.trim padded_text = "T".
Proof. reflexivity. Qed.

Example toString_decimal :
  map JS.toString [0; 9; 10; 1024; 1700000000000]%N
  = ["0"; "9"; "10"; "1024"; "1700000000000"].
Proof. reflexivity. Qed.

Example parse_rejects_trailing_comma : JSON.parse "[1,]" = Throw SyntaxError.
Proof. reflexivity. Qed.

Example parse_nested :
  JSON.parse " [ [ ], { } , -1.5e3, true ] "
  = Normal (JSON.Arr [JSON.Arr []; JSON.Obj []; JSON.Number "-1.5e3"; JSON.Bool true]).
Proof. reflexivity. Qed.

(** What a save writes, the next start reads back. *)
Example saved_entries_hydrate :
  App.load_entries JSON.parse
    (fst (App.onSave entry_with_suggestion
            (App.entries_effect (∅, App.setEntries [entry_without_suggestion] App.initial))))
    App.initial
  = App.Completed
      (App.setEntries [entry_with_suggestion; entry_without_suggestion] App.initial).
Proof. vm_compute. reflexivity. Qed.

Example pipeline_walk :
  map (fun w => pipeline (view w))
      [start; ready_world; requesting_world; padded_answer_world;
       run [ClickRegenerate] padded_answer_world]
  = [Idle; Ready; Requesting; Resolved; Ready].
Proof. reflexivity. Qed.

(** The guard against a second request is the disabled button: the handler
    itself, called while a request is in flight, would send another. *)
Remark handler_alone_does_not_guard :
  length (in_flight (snd (handleAnalyzeCBT (Normal tt) requesting_world))) = 2%nat
  ∧ step (ClickAnalyze (Normal tt)) requesting_world = requesting_world.
Proof. split; reflexivity. Qed.

(** With the panel closed both fields are left out. *)
Example closed_panel_saves_neither :
  Entry.negativeThought <$> clickSave sample_clock None plain_composition = Some None
  ∧ Entry.cbtSuggestion <$> clickSave sample_clock None plain_composition = Some None.
Proof. split; reflexivity. Qed.

(** ** Instances and counterexamples *)

(** C1 fails as stated: with text under the entry-history key that is not
    JSON, the exception of [JSON.parse] leaves the startup effect; and with
    JSON that is no entry sequence, the parsed value is handed to the
    setter as it is. *)
Lemma C1_counterexample :
  JSON.parse "{oops" = Throw SyntaxError
  ∧ App.hydration_effect JSON.parse malformed_storage App.initial
    = App.Uncaught SyntaxError
  ∧ App.hydration_effect JSON.parse number_storage App.initial
    = App.OutsideTypes "mm_entries" (JSON.Number "42").
Proof. repeat split. Qed.

Lemma C1_witness :
  App.hydration_effect JSON.parse ∅ App.initial = App.Completed App.initial
  ∧ App.hydration_effect JSON.parse malformed_storage App.initial
    = App.Uncaught SyntaxError.
Proof.
  split.
  - destruct (proj1 (C1_hydration_absent_or_rejected JSON.parse ∅)) as (_ & _ & ->).
    + left. reflexivity.
    + reflexivity.
  - apply (proj1 (proj2 (C1_hydration_absent_or_rejected JSON.parse malformed_storage))
             "{oops" SyntaxError).
    + reflexivity.
    + discriminate.
    + reflexivity.
Defined.

Lemma C2_witness :
  aiSuggestion (view (snd (handleAnalyzeCBT_resume (Throw network_error) requesting_world)))
  = Some FALLBACK_SUGGESTION.
Proof.
  apply (C2_failure_stores_fallback ready_world network_error).
  reflexivity.
Defined.

(** C3 fails as stated: the text of the answer is stored with its leading
    and trailing space, not trimmed; and an empty answer leaves the pipeline
    in Ready, not Resolved. *)
Lemma C3_counterexample :
  aiSuggestion (view padded_answer_world) = Some padded_text
  ∧ aiSuggestion (view padded_answer_world) ≠ Some (JS.trim padded_text)
  ∧ pipeline (view empty_answer_world) = Ready.
Proof. repeat split. discriminate. Qed.

Lemma C3_witness :
  aiSuggestion
    (view (snd (handleAnalyzeCBT_resume (Normal {| text := Some padded_text |})
                  requesting_world)))
  = Some padded_text.
Proof.
  apply (C3_success_stores_text_verbatim ready_world {| text := Some padded_text |}).
  reflexivity.
Defined.

(** C6 fails as stated.  After an answer without text the saved entry has
    its thought and no suggestion field at all; with the panel open and no
    request made it has the thought next to the empty suggestion; and with
    the thought erased after the answer it carries the suggestion next to
    the empty thought. *)
Lemma C6_counterexample :
  (clickSave sample_clock None textless_composition = Some textless_entry
   ∧ Entry.negativeThought textless_entry = Some sample_thought
   ∧ Entry.cbtSuggestion textless_entry = None)
  ∧ (clickSave sample_clock None abandoned_composition = Some abandoned_entry
     ∧ Entry.negativeThought abandoned_entry = Some sample_thought
     ∧ Entry.cbtSuggestion abandoned_entry = Some "")
  ∧ (clickSave sample_clock None erased_thought_composition = Some erased_thought_entry
     ∧ Entry.negativeThought erased_thought_entry = Some ""
     ∧ Entry.cbtSuggestion erased_thought_entry = Some FALLBACK_SUGGESTION).
Proof. repeat split. Qed.

Lemma C6_witness :
  clickSave sample_clock None erased_thought_composition = Some erased_thought_entry
  ∧ (is_Some (Entry.cbtSuggestion erased_thought_entry)
     → is_Some (Entry.negativeThought erased_thought_entry)).
Proof.
  split; [reflexivity|].
  apply (C6_suggestion_set_implies_thought_set sample_clock None
           erased_thought_composition).
  reflexivity.
Defined.

Lemma blank_composition_is_blank : JS.whitespace_only (content blank_composition).
Proof.
  unfold blank_composition. cbn [content setContent].
  apply JS.ws_more; [cbn; tauto|].
  apply JS.ws_more; [cbn; tauto|].
  apply JS.ws_empty.
Defined.

Lemma C7_witness :
  step (ClickAnalyze (Normal tt)) requesting_world = requesting_world.
Proof.
  apply (proj1 (proj2 (proj2 C7_one_request_in_flight))).
  reflexivity.
Defined.

Lemma C8_witness :
  save sample_clock blank_composition (∅, App.initial) = (∅, App.initial).
Proof.
  apply (C8_blank_content_is_not_saved sample_clock blank_composition (∅, App.initial)).
  exact blank_composition_is_blank.
Defined.

(** ** Printing and parsing JSON *)

Section JsonRoundTrip.

Import JSON Printed.

Lemma string_body_escape (a : ascii) (t : string) :
  string_body (escape a +:+ t)
  = '(str, rest) ← string_body t; Some (String a str, rest).
Proof. destruct a as [[] [] [] [] [] [] [] []]; reflexivity. Qed.

Lemma string_body_quote_body (s rest : string) :
  string_body (quote_body s +:+ rest) = Some (s, rest).
Proof.
  induction s as [|a s IH]; [reflexivity|].
  cbn [quote_body]. rewrite append_assoc, string_body_escape, IH. reflexivity.
Qed.

Lemma need_arr (items : list value) : need (Arr items) = S (need_items items).
Proof. reflexivity. Qed.
Lemma need_obj (ms : list (string * value)) : need (Obj ms) = S (need_members ms).
Proof. reflexivity. Qed.
Lemma need_items_cons x xs : need_items (x :: xs) = S (Nat.max (need x) (need_items xs)).
Proof. reflexivity. Qed.
Lemma need_members_cons k x xs :
  need_members ((k, x) :: xs) = S (Nat.max (need x) (need_members xs)).
Proof. reflexivity. Qed.
Lemma need_pos v : (1 ≤ need v)%nat.
Proof. destruct v; cbn; lia. Qed.

Lemma stringify_arr items :
  stringify (Arr items) = "[" +:+ join (map stringify items) +:+ "]".
Proof. reflexivity. Qed.
Lemma stringify_obj ms :
  stringify (Obj ms) = "{" +:+ join (map member_text ms) +:+ "}".
Proof. reflexivity. Qed.

Lemma opens_append s t : opens s → opens (s +:+ t).
Proof. intros (c & r & -> & H). exists c, (r +:+ t). split; [reflexivity | exact H]. Qed.

Lemma stringify_opens v : number_free v = true → opens (stringify v).
Proof.
  destruct v as [|[]|l|s|items|ms]; intros H; try discriminate H;
    try (eexists _, _; split; [reflexivity | repeat split]).
Qed.

Lemma skip_ws_opens s : opens s → skip_ws s = s.
Proof. intros (c & r & -> & H & _). cbn. now rewrite H. Qed.

Section ParseSteps.
Variable n : nat.

Lemma parse_at_str (s rest : string) :
  parse_at (S n) MValue (quote s +:+ rest) = Some (Str s, rest).
Proof.
  change (parse_at (S n) MValue (quote s +:+ rest))
    with ('(str, r) ← string_body (quote_body s +:+ rest); Some (Str str, r)).
  now rewrite string_body_quote_body.
Qed.

Lemma parse_at_open_arr (R : string) :
  opens R → parse_at (S n) MValue ("[" +:+ R) = parse_at n (MElems []) R.
Proof.
  intros (c & r & -> & Hws & H93 & _).
  change (parse_at (S n) MValue ("[" +:+ String c r))
    with (match skip_ws (String c r) with
          | String b r' =>
              if at_code 93 b then Some (Arr [], r') else parse_at n (MElems []) (String c r)
          | EmptyString => None
          end).
  cbn [skip_ws]. now rewrite Hws, H93.
Qed.

Lemma parse_at_open_obj (R : string) :
  opens R → parse_at (S n) MValue ("{" +:+ R) = parse_at n (MMembers []) R.
Proof.
  intros (c & r & -> & Hws & _ & H125).
  change (parse_at (S n) MValue ("{" +:+ String c r))
    with (match skip_ws (String c r) with
          | String b r' =>
              if at_code 125 b then Some (Obj [], r') else parse_at n (MMembers []) (String c r)
          | EmptyString => None
          end).
  cbn [skip_ws]. now rewrite Hws, H125.
Qed.

Lemma parse_at_elem_more (acc : list value) (s r : string) (x : value) :
  parse_at n MValue s = Some (x, "," +:+ r) →
  parse_at (S n) (MElems acc) s = parse_at n (MElems (x :: acc)) r.
Proof.
  intros H.
  change (parse_at (S n) (MElems acc) s)
    with ('(v, r0) ← parse_at n MValue s;
          match skip_ws r0 with
          | String b r' =>
              if at_code 44 b then parse_at n (MElems (v :: acc)) r'
              else if at_code 93 b then Some (Arr (rev (v :: acc)), r')
              else None
          | EmptyString => None
          end).
  rewrite H. reflexivity.
Qed.

Lemma parse_at_elem_last (acc : list value) (s r : string) (x : value) :
  parse_at n MValue s = Some (x, "]" +:+ r) →
  parse_at (S n) (MElems acc) s = Some (Arr (rev (x :: acc)), r).
Proof.
  intros H.
  change (parse_at (S n) (MElems acc) s)
    with ('(v, r0) ← parse_at n MValue s;
          match skip_ws r0 with
          | String b r' =>
              if at_code 44 b then parse_at n (MElems (v :: acc)) r'
              else if at_code 93 b then Some (Arr (rev (v :: acc)), r')
              else None
          | EmptyString => None
          end).
  rewrite H. reflexivity.
Qed.

Lemma parse_at_member (acc : list (string * value)) (k s r : string) (x : value) :
  parse_at n MValue s = Some (x, r) →
  parse_at (S n) (MMembers acc) (quote k +:+ ":" +:+ s)
  = match skip_ws r with
    | String b r' =>
        if at_code 44 b then parse_at n (MMembers ((k, x) :: acc)) r'
        else if at_code 125 b then Some (Obj (rev ((k, x) :: acc)), r')
        else None
    | EmptyString => None
    end.
Proof.
  intros H.
  change (parse_at (S n) (MMembers acc) (quote k +:+ ":" +:+ s))
    with ('(k0, r1) ← string_body (quote_body k +:+ ":" +:+ s);
          match skip_ws r1 with
          | String c r2 =>
              if at_code 58 c then
                '(v, r3) ← parse_at n MValue r2;
                match skip_ws r3 with
                | String b r' =>
                    if at_code 44 b then parse_at n (MMembers ((k0, v) :: acc)) r'
                    else if at_code 125 b then Some (Obj (rev ((k0, v) :: acc)), r')
                    else None
                | EmptyString => None
                end
              else None
          | EmptyString => None
          end).
  rewrite string_body_quote_body. cbn [mbind option_bind].
  change (skip_ws (":" +:+ s)) with (String ":" s). cbn [at_code].
  change (at_code 58 ":") with true. cbn iota. rewrite H. reflexivity.
Qed.

End ParseSteps.

Lemma join_cons_cons (p q : string) (l : list string) :
  join (p :: q :: l) = p +:+ "," +:+ join (q :: l).
Proof. reflexivity. Qed.

Lemma member_text_opens kv : opens (member_text kv).
Proof. destruct kv as [k x]. eexists _, _. split; [reflexivity | repeat split]. Qed.

Lemma join_opens (p : string) (l : list string) : opens p → opens (join (p :: l)).
Proof.
  intros H. destruct l as [|q l]; [exact H|].
  rewrite join_cons_cons. now apply opens_append.
Qed.

Lemma parse_at_stringify (n : nat) :
  (∀ v rest, (need v ≤ n)%nat → number_free v = true →
     parse_at n MValue (stringify v +:+ rest) = Some (v, rest))
  ∧ (∀ x xs acc rest,
       (need_items (x :: xs) ≤ n)%nat → forallb number_free (x :: xs) = true →
       parse_at n (MElems acc) (join (map stringify (x :: xs)) +:+ "]" +:+ rest)
       = Some (Arr (rev acc ++ x :: xs), rest))
  ∧ (∀ kv ms acc rest,
       (need_members (kv :: ms) ≤ n)%nat →
       forallb (fun kv => match kv with (_, x) => number_free x end) (kv :: ms) = true →
       parse_at n (MMembers acc) (join (map member_text (kv :: ms)) +:+ "}" +:+ rest)
       = Some (Obj (rev acc ++ kv :: ms), rest)).
Proof.
  induction n as [|n (IHV & IHE & IHM)].
  { split; [|split].
    - intros v rest Hn. pose proof (need_pos v). lia.
    - intros x xs acc rest Hn. rewrite need_items_cons in Hn. lia.
    - intros [k x] ms acc rest Hn. rewrite need_members_cons in Hn. lia. }
  split; [|split].
  - intros v rest Hn Hnf. destruct v as [|b|l|s|items|ms].
    + reflexivity.
    + destruct b; reflexivity.
    + discriminate.
    + apply parse_at_str.
    + destruct items as [|x xs]; [reflexivity|].
      rewrite stringify_arr, !append_assoc, parse_at_open_arr.
      * apply IHE; [rewrite need_arr in Hn; lia | exact Hnf].
      * apply opens_append. cbn [map]. apply join_opens, stringify_opens.
        cbn [number_free forallb] in Hnf. now apply andb_true_iff in Hnf as [? _].
    + destruct ms as [|kv ms]; [reflexivity|].
      rewrite stringify_obj, !append_assoc, parse_at_open_obj.
      * apply IHM; [rewrite need_obj in Hn; lia | exact Hnf].
      * apply opens_append. cbn [map]. apply join_opens, member_text_opens.
  - intros x xs acc rest Hn Hnf. rewrite need_items_cons in Hn.
    cbn [forallb] in Hnf. apply andb_true_iff in Hnf as [Hx Hxs].
    destruct xs as [|y ys].
    + cbn [map join]. rewrite (parse_at_elem_last n acc _ rest x).
      * cbn [rev]. now rewrite <- ?app_assoc.
      * apply IHV; [lia | exact Hx].
    + cbn [map]. rewrite join_cons_cons, !append_assoc.
      rewrite (parse_at_elem_more n acc _ (join (stringify y :: map stringify ys) +:+ "]" +:+ rest) x).
      * change (stringify y :: map stringify ys) with (map stringify (y :: ys)).
        rewrite IHE; [|lia|exact Hxs]. cbn [rev]. now rewrite <- ?app_assoc.
      * apply IHV; [lia | exact Hx].
  - intros [k x] ms acc rest Hn Hnf. rewrite need_members_cons in Hn.
    cbn [forallb] in Hnf. apply andb_true_iff in Hnf as [Hx Hms].
    destruct ms as [|kv' ms'].
    + cbn [map join member_text]. rewrite !append_assoc.
      rewrite (parse_at_member n acc k _ ("}" +:+ rest) x).
      * cbn [rev]. now rewrite <- ?app_assoc.
      * apply IHV; [lia | exact Hx].
    + cbn [map]. rewrite join_cons_cons. cbn [member_text]. rewrite !append_assoc.
      rewrite (parse_at_member n acc k _
                 ("," +:+ join (member_text kv' :: map member_text ms') +:+ "}" +:+ rest) x).
      * change (skip_ws ("," +:+ join (member_text kv' :: map member_text ms') +:+ "}" +:+ rest))
          with (String "," (join (map member_text (kv' :: ms')) +:+ "}" +:+ rest)).
        change (at_code 44 ",") with true. cbn iota.
        rewrite IHM; [|lia|exact Hms]. cbn [rev]. now rewrite <- ?app_assoc.
      * apply IHV; [lia | exact Hx].
Qed.

Lemma length_append (a b : string) :
  String.length (a +:+ b) = (String.length a + String.length b)%nat.
Proof.
  induction a as [|x a IH]; [reflexivity|].
  rewrite append_cons. cbn [String.length]. now rewrite IH.
Qed.

Lemma need_le_length (n : nat) :
  (∀ v, (need v ≤ n)%nat → number_free v = true →
     (need v ≤ String.length (stringify v))%nat)
  ∧ (∀ x xs, (need_items (x :: xs) ≤ n)%nat → forallb number_free (x :: xs) = true →
       (need_items (x :: xs) ≤ S (String.length (join (map stringify (x :: xs)))))%nat)
  ∧ (∀ kv ms, (need_members (kv :: ms) ≤ n)%nat →
       forallb (fun kv => match kv with (_, x) => number_free x end) (kv :: ms) = true →
       (need_members (kv :: ms) ≤ S (String.length (join (map member_text (kv :: ms)))))%nat).
Proof.
  induction n as [|n (IHV & IHE & IHM)].
  { split; [|split].
    - intros v Hn. pose proof (need_pos v). lia.
    - intros x xs Hn. rewrite need_items_cons in Hn. lia.
    - intros [k x] ms Hn. rewrite need_members_cons in Hn. lia. }
  split; [|split].
  - intros v Hn Hnf. destruct v as [|b|l|s|items|ms].
    + cbn. lia.
    + destruct b; cbn; lia.
    + discriminate.
    + change (stringify (Str s)) with (String (JS.chr 34) (quote_body s)).
      cbn [need String.length]. lia.
    + destruct items as [|x xs]; [vm_compute; lia|].
      rewrite need_arr in *. rewrite stringify_arr, !length_append.
      cbn [number_free] in Hnf. specialize (IHE x xs ltac:(lia) Hnf).
      cbn [String.length]. lia.
    + destruct ms as [|kv ms]; [vm_compute; lia|].
      rewrite need_obj in *. rewrite stringify_obj, !length_append.
      cbn [number_free] in Hnf. specialize (IHM kv ms ltac:(lia) Hnf).
      cbn [String.length]. lia.
  - intros x xs Hn Hnf. rewrite need_items_cons in *.
    cbn [forallb] in Hnf. apply andb_true_iff in Hnf as [Hx Hxs].
    specialize (IHV x ltac:(lia) Hx). destruct xs as [|y ys].
    + cbn [map join need_items]. lia.
    + cbn [map]. rewrite join_cons_cons, !length_append.
      specialize (IHE y ys ltac:(lia) Hxs). cbn [map] in IHE. cbn [String.length]. lia.
  - intros [k x] ms Hn Hnf. rewrite need_members_cons in *.
    cbn [forallb] in Hnf. apply andb_true_iff in Hnf as [Hx Hms].
    specialize (IHV x ltac:(lia) Hx). destruct ms as [|kv' ms'].
    + cbn [map join need_members member_text]. rewrite !length_append. lia.
    + cbn [map]. rewrite join_cons_cons. cbn [member_text]. rewrite !length_append.
      specialize (IHM kv' ms' ltac:(lia) Hms). cbn [map] in IHM. cbn [String.length]. lia.
Qed.

(** What [JSON.stringify] writes for a value without numbers,
    [JSON.parse] reads back as the same value. *)
Theorem parse_stringify (v : value) :
  number_free v = true → parse (stringify v) = Normal v.
Proof.
  intros Hnf. unfold parse.
  assert (Hneed : (need v ≤ 2 * String.length (stringify v) + 2)%nat).
  { pose proof (proj1 (need_le_length (need v)) v (le_n _) Hnf). lia. }
  pose proof (proj1 (parse_at_stringify _) v "" Hneed Hnf) as H.
  rewrite append_empty_r in H. rewrite H. reflexivity.
Qed.

End JsonRoundTrip.

(** ** Persistence *)

Lemma as_entry_to_json (e : JournalEntry) : as_entry (entry_to_json e) = Some e.
Proof.
  destruct e as [i d c m [n|] [s|] [p|]]; destruct m; reflexivity.
Qed.

Lemma as_entries_to_json (es : list JournalEntry) :
  as_entries (entries_to_json es) = Some es.
Proof.
  unfold as_entries, entries_to_json.
  induction es as [|e es IH]; [reflexivity|].
  cbn [map mapM]. rewrite as_entry_to_json. cbn [mbind option_bind].
  rewrite IH. reflexivity.
Qed.

Lemma entries_to_json_number_free (es : list JournalEntry) :
  Printed.number_free (entries_to_json es) = true.
Proof.
  unfold entries_to_json. cbn [Printed.number_free].
  induction es as [|e es IH]; [reflexivity|].
  cbn [map forallb]. rewrite IH, andb_true_r.
  destruct e as [i d c m [n|] [s|] [p|]]; reflexivity.
Qed.

Lemma as_settings_to_json (s : UserSettings) : as_settings (settings_to_json s) = Some s.
Proof. destruct s as [t []]; reflexivity. Qed.

Lemma parse_entries (es : list JournalEntry) :
  JSON.parse (JSON.stringify (entries_to_json es)) = Normal (entries_to_json es).
Proof. apply parse_stringify, entries_to_json_number_free. Qed.

Lemma parse_settings (s : UserSettings) :
  JSON.parse (JSON.stringify (settings_to_json s)) = Normal (settings_to_json s).
Proof. apply parse_stringify. destruct s as [t []]; reflexivity. Qed.

Lemma entries_effect_hydrates (ls : Storage) (st st' : App.state) :
  App.load_entries JSON.parse (fst (App.entries_effect (ls, st))) st'
  = App.Completed (App.setEntries (App.entries st) st').
Proof.
  apply (load_entries_loaded JSON.parse _ _
           (JSON.stringify (entries_to_json (App.entries st)))
           (entries_to_json (App.entries st))).
  - cbn [App.entries_effect fst]. apply lookup_insert_eq.
  - discriminate.
  - apply parse_entries.
  - apply as_entries_to_json.
Qed.

Lemma settings_effect_hydrates (ls : Storage) (st st' : App.state) :
  App.load_settings JSON.parse (fst (App.settings_effect (ls, st))) st'
  = App.Completed (App.setSettings (App.settings st) st').
Proof.
  unfold App.load_settings. cbn [App.settings_effect fst].
  rewrite lookup_insert_eq.
  change (JS.truthy (JSON.stringify (settings_to_json (App.settings st)))) with true.
  cbn iota. now rewrite parse_settings, as_settings_to_json.
Qed.

(** X1.  What the two persistence effects write, the startup effect reads
    back: whatever the entries and the settings hold and whatever else is
    in the storage, a start from that storage loads the same entry sequence
    and the same settings, and throws nothing. *)
Theorem X1_persisted_state_hydrates (ls : Storage) (st st' : App.state) :
  App.hydration_effect JSON.parse
    (fst (App.settings_effect (App.entries_effect (ls, st)))) st'
  = App.Completed
      (App.setSettings (App.settings st) (App.setEntries (App.entries st) st'))
  ∧ App.load_entries JSON.parse (fst (App.entries_effect (ls, st))) st'
    = App.Completed (App.setEntries (App.entries st) st')
  ∧ App.load_settings JSON.parse (fst (App.settings_effect (ls, st))) st'
    = App.Completed (App.setSettings (App.settings st) st').
Proof.
  split; [|split; [apply entries_effect_hydrates | apply settings_effect_hydrates]].
  unfold App.hydration_effect.
  rewrite (load_entries_loaded JSON.parse _ st'
             (JSON.stringify (entries_to_json (App.entries st)))
             (entries_to_json (App.entries st)) (App.entries st)).
  - apply (settings_effect_hydrates _ (snd (App.entries_effect (ls, st)))).
  - cbn [App.entries_effect App.settings_effect fst snd].
    rewrite lookup_insert_ne by discriminate. apply lookup_insert_eq.
  - discriminate.
  - apply parse_entries.
  - apply as_entries_to_json.
Qed.

(** X2.  Each persistence effect writes its own key and no other: saving an
    entry leaves the stored settings as they are, and changing a setting
    leaves the stored entries as they are. *)
Theorem X2_effects_write_their_own_key (ls : Storage) (st : App.state) (key : string) :
  (key ≠ "mm_entries" → fst (App.entries_effect (ls, st)) !! key = ls !! key)
  ∧ (key ≠ "mm_settings" → fst (App.settings_effect (ls, st)) !! key = ls !! key).
Proof.
  split; intros Hne; cbn [App.entries_effect App.settings_effect fst];
    now rewrite lookup_insert_ne.
Qed.

(** ** Badges over a growing history *)

Lemma unlocked_iff (es : list JournalEntry) (id : string) :
  In id (unlocked_ids (recompute es initial_badges))
  ↔ (id = "first_step" ∧ (1 ≤ length es)%nat)
    ∨ (id = "streak_3" ∧ (3 ≤ length es)%nat)
    ∨ (id = "cbt_explorer" ∧ cbt_explorer_condition es = true)
    ∨ (id = "master_10" ∧ (10 ≤ length es)%nat).
Proof.
  rewrite unlocked_ids_initial.
  unfold first_step_condition, streak_3_condition, master_10_condition.
  destruct (Nat.leb_spec 1 (length es)), (Nat.ltb_spec (length es) 3),
    (Nat.leb_spec 10 (length es)), (cbt_explorer_condition es);
    cbn; intuition (try discriminate; try lia; auto).
Qed.

Lemma cbt_explorer_condition_cons (e : JournalEntry) (es : list JournalEntry) :
  cbt_explorer_condition es = true → cbt_explorer_condition (e :: es) = true.
Proof.
  unfold cbt_explorer_condition. cbn [existsb]. intros ->. apply orb_true_r.
Qed.

Lemma cbt_explorer_condition_nonempty (es : list JournalEntry) :
  cbt_explorer_condition es = true → (1 ≤ length es)%nat.
Proof. destruct es; [discriminate | cbn; lia]. Qed.

Lemma unlocked_count_initial (es : list JournalEntry) :
  unlocked_count (recompute es initial_badges)
  = length (unlocked_ids (recompute es initial_badges)).
Proof. unfold unlocked_count, unlocked_ids. now rewrite length_map. Qed.

Lemma badges_agree_static (st : App.state) :
  badges_agree st → map static_part (App.badges st) = map static_part initial_badges.
Proof. unfold badges_agree. intros ->. apply recompute_static. Qed.

Lemma onSave_badges_agree (entry : JournalEntry) (ls : Storage) (st : App.state) :
  badges_agree st → badges_agree (snd (App.onSave entry (ls, st))).
Proof.
  intros H. unfold badges_agree.
  change (App.badges (snd (App.onSave entry (ls, st))))
    with (recompute (entry :: App.entries st) (App.badges st)).
  rewrite onSave_entries.
  apply recompute_from_static, badges_agree_static, H.
Qed.

(** X3.  Saving an entry never locks a badge: every badge unlocked before the
    save is unlocked after it, and the number shown on the profile does
    not go down. *)
Theorem X3_save_never_locks_a_badge
    (entry : JournalEntry) (ls : Storage) (st : App.state) :
  badges_agree st →
  (∀ id, In id (unlocked_ids (App.badges st)) →
         In id (unlocked_ids (App.badges (snd (App.onSave entry (ls, st))))))
  ∧ (unlocked_count (App.badges st)
     ≤ unlocked_count (App.badges (snd (App.onSave entry (ls, st)))) ≤ 4)%nat.
Proof.
  intros H. pose proof (onSave_badges_agree entry ls st H) as H'.
  unfold badges_agree in H, H'. rewrite H, H', onSave_entries.
  split.
  - intros id. rewrite !unlocked_iff. cbn [length].
    intros [[-> ?] | [[-> ?] | [[-> Hc] | [-> ?]]]].
    + left. split; [reflexivity | lia].
    + right. left. split; [reflexivity | lia].
    + right. right. left. split; [reflexivity | now apply cbt_explorer_condition_cons].
    + right. right. right. split; [reflexivity | lia].
  - rewrite !unlocked_count_initial, !unlocked_ids_initial.
    unfold first_step_condition, streak_3_condition, master_10_condition.
    pose proof (cbt_explorer_condition_cons entry (App.entries st)) as Hc.
    cbn [length].
    destruct (Nat.leb_spec 1 (length (App.entries st))),
      (Nat.ltb_spec (length (App.entries st)) 3),
      (Nat.leb_spec 10 (length (App.entries st))),
      (Nat.leb_spec 1 (S (length (App.entries st)))),
      (Nat.ltb_spec (S (length (App.entries st))) 3),
      (Nat.leb_spec 10 (S (length (App.entries st))));
      try lia;
      destruct (cbt_explorer_condition (App.entries st));
      try rewrite (Hc eq_refl);
      destruct (cbt_explorer_condition (entry :: App.entries st)); cbn; lia.
Qed.

(** X4.  The badges come in an order: ten entries imply the streak badge, the
    streak badge and the reframing badge each imply the first-entry badge. *)
Theorem X4_badge_order (es : list JournalEntry) :
  let ids := unlocked_ids (recompute es initial_badges) in
  (In "master_10" ids → In "streak_3" ids)
  ∧ (In "streak_3" ids → In "first_step" ids)
  ∧ (In "cbt_explorer" ids → In "first_step" ids).
Proof.
  cbn zeta. rewrite !unlocked_iff. repeat split.
  - intros [[? _] | [[? _] | [[? _] | [_ H]]]]; try discriminate.
    right. left. split; [reflexivity | lia].
  - intros [[? _] | [[_ H] | [[? _] | [? _]]]]; try discriminate.
    left. split; [reflexivity | lia].
  - intros [[? _] | [[? _] | [[_ H] | [? _]]]]; try discriminate.
    left. split; [reflexivity | now apply cbt_explorer_condition_nonempty].
Qed.

(** ** The home view *)

(** X5.  The recent list is the three latest entries, newest first: a save puts
    its entry first and keeps the two before it; the list is empty only
    when there is no entry at all; and a mark in it means the reframing
    badge is unlocked. *)
Theorem X5_recent_entries (entry : JournalEntry) (ls : Storage) (st : App.state) :
  recentEntries (App.entries (snd (App.onSave entry (ls, st))))
  = entry :: take 2 (App.entries st)
  ∧ length (recentEntries (App.entries st)) = Nat.min 3 (length (App.entries st))
  ∧ (recentEntries (App.entries st) = [] ↔ App.entries st = [])
  ∧ (existsb shows_suggestion_mark (recentEntries (App.entries st)) = true →
     In "cbt_explorer" (unlocked_ids (recompute (App.entries st) initial_badges))).
Proof.
  rewrite onSave_entries. unfold recentEntries. repeat split.
  - apply length_take.
  - destruct (App.entries st); [reflexivity | discriminate].
  - intros ->. reflexivity.
  - rewrite cbt_explorer_unlocked. unfold cbt_explorer_condition, shows_suggestion_mark.
    rewrite !existsb_exists. intros (e & Hin & He). exists e. split; [|exact He].
    apply list_elem_of_In. apply list_elem_of_In, list_elem_of_lookup in Hin as [i Hi].
    apply list_elem_of_lookup. exists i.
    apply lookup_take_Some in Hi as [Hi _]. exact Hi.
Qed.

(** ** Sessions *)

Lemma save_cases (clock : Clock) (c : state) (w : Storage * App.state) :
  save clock c w = w
  ∨ ∃ entry, handleSubmit clock (App.viewProps (snd w)) c = Some entry
             ∧ save clock c w = App.onSave entry w.
Proof.
  unfold save. rewrite clickSave_handleSubmit.
  destruct (handleSubmit clock (App.viewProps (snd w)) c) as [entry|];
    [right; now exists entry | now left].
Qed.

(** What one action can do: leave entries, badges and prompt as they are
    (the navigation and settings actions, and a save of blank content);
    replace the prompt and nothing else (the write buttons and the exercise
    cards); or store one entry built by the composition view. *)
Lemma act_cases (a : Session.action) (ls : Storage) (st : App.state) :
  (App.entries (snd (Session.act a (ls, st))) = App.entries st
   ∧ App.badges (snd (Session.act a (ls, st))) = App.badges st
   ∧ (App.viewProps (snd (Session.act a (ls, st))) = App.viewProps st
      ∨ known_prompt (App.viewProps (snd (Session.act a (ls, st))))))
  ∨ ∃ evs clock entry,
      a = Session.Compose evs clock
      ∧ handleSubmit clock (App.viewProps st) (view (run evs start)) = Some entry
      ∧ Session.act a (ls, st) = App.onSave entry (ls, st).
Proof.
  destruct a as [t| |i|evs clock|checked|value]; cbn [Session.act].
  - left. repeat split. now left.
  - left. repeat split. right. now left.
  - left. destruct (App.activeTab st); try (repeat split; now left).
    destruct (GUIDED_EXERCISES !! i) as [ex|] eqn:Hex; [|repeat split; now left].
    repeat split. right. right. exists ex. split; [|reflexivity].
    apply list_elem_of_In, list_elem_of_lookup. now exists i.
  - destruct (App.activeTab st); try (left; repeat split; now left).
    destruct (save_cases clock (view (run evs start)) (ls, st)) as [-> | (entry & He & ->)].
    + left. repeat split. now left.
    + right. now exists evs, clock, entry.
  - left. destruct (App.activeTab st); repeat split; now left.
  - left. destruct (App.activeTab st); try (repeat split; now left).
    destruct (reminderEnabled (App.settings st)); repeat split; now left.
Qed.

Lemma handleSubmit_well_formed (clock : Clock) (p : option string) (c : state)
    (entry : JournalEntry) :
  handleSubmit clock p c = Some entry →
  well_formed_entry entry ∧ Entry.prompt entry = p.
Proof.
  intros H. destruct (handleSubmit_entry _ _ _ _ H) as (Ht & Hc & _ & Hn & Hs & Hp).
  split; [split|exact Hp].
  - rewrite Hc. intros Hws. now apply whitespace_only_trim in Hws.
  - rewrite Hn, Hs. destruct (showCBT c); intros [x Hx]; [eexists; reflexivity | discriminate].
Qed.

Lemma run_snoc (acts : list Session.action) (a : Session.action) (w : Storage * App.state) :
  Session.run (acts ++ [a]) w = Session.act a (Session.run acts w).
Proof. unfold Session.run. now rewrite fold_left_app. Qed.

Lemma act_badges_agree (a : Session.action) (w : Storage * App.state) :
  badges_agree (snd w) → badges_agree (snd (Session.act a w)).
Proof.
  destruct w as [ls st]. intros H.
  destruct (act_cases a ls st) as [(He & Hb & _) | (evs & clock & entry & _ & _ & ->)].
  - unfold badges_agree in *. cbn [snd] in H. now rewrite He, Hb.
  - now apply onSave_badges_agree.
Qed.

Lemma act_entries_ok (a : Session.action) (w : Storage * App.state) :
  entries_ok (snd w) → entries_ok (snd (Session.act a w)).
Proof.
  destruct w as [ls st]. unfold entries_ok. cbn [snd]. intros [Hp Hall].
  destruct (act_cases a ls st) as [(He & _ & Hv) | (evs & clock & entry & _ & Hs & ->)].
  - rewrite He. split; [|exact Hall]. destruct Hv as [-> | Hv]; assumption.
  - rewrite onSave_entries. split; [exact Hp|].
    apply handleSubmit_well_formed in Hs as [Hwf Hpr].
    constructor; [|exact Hall]. split; [exact Hwf | now rewrite Hpr].
Qed.

(** X6.  Through a whole session the badges shown are the four of the initial
    list with their flags computed from the current entries. *)
Theorem X6_badges_follow_entries
    (acts : list Session.action) (ls : Storage) (st : App.state) :
  badges_agree st → badges_agree (snd (Session.run acts (ls, st))).
Proof.
  intros H. induction acts as [|a acts IH] using rev_ind; [exact H|].
  rewrite run_snoc. now apply act_badges_agree.
Qed.

(** X7.  Through a whole session every stored entry has content that is not
    blank, has a thought field whenever it has a suggestion field, and
    answers no prompt or the prompt of a guided exercise. *)
Theorem X7_stored_entries_are_well_formed
    (acts : list Session.action) (ls : Storage) (st : App.state) :
  entries_ok st → entries_ok (snd (Session.run acts (ls, st))).
Proof.
  intros H. induction acts as [|a acts IH] using rev_ind; [exact H|].
  rewrite run_snoc. now apply act_entries_ok.
Qed.

(** X8.  A session only appends: the entries it finds stay, in their order, below
    the ones it adds, and it adds at most one per action. *)
Theorem X8_session_is_append_only
    (acts : list Session.action) (ls : Storage) (st : App.state) :
  ∃ new, App.entries (snd (Session.run acts (ls, st))) = (new ++ App.entries st)%list
         ∧ (length new ≤ length acts)%nat.
Proof.
  induction acts as [|a acts (new & IH & Hlen)] using rev_ind.
  - exists []. split; [reflexivity | cbn; lia].
  - rewrite run_snoc, length_app. cbn [length].
    destruct (Session.run acts (ls, st)) as [ls1 st1] eqn:Hrun. cbn [snd] in IH.
    destruct (act_cases a ls1 st1) as [(He & _) | (evs & clock & entry & _ & _ & ->)].
    + exists new. rewrite He, IH. split; [reflexivity | lia].
    + exists (entry :: new). rewrite onSave_entries, IH. split; [reflexivity | cbn; lia].
Qed.

(** ** More on the reframing pipeline *)

Lemma view_run_snoc (evs : list event) (ev : event) (w : world) :
  run (evs ++ [ev]) w = step ev (run evs w).
Proof. unfold run. now rewrite fold_left_app. Qed.

Lemma enabled_facts (c : state) :
  analyze_button_enabled c = true →
  showCBT c = true ∧ JS.truthy_opt (aiSuggestion c) = false ∧ isAnalysing c = false
  ∧ JS.truthy (negativeThought c) = true.
Proof.
  unfold analyze_button_enabled. intros H.
  apply andb_true_iff in H as [H Hfree].
  apply andb_true_iff in H as [Hshow Hnone].
  apply negb_true_iff, orb_false_iff in Hfree as [Hidle Hthought].
  apply negb_false_iff in Hthought. apply negb_true_iff in Hnone.
  repeat split; assumption.
Qed.

Lemma falsy_cases (o : option string) :
  JS.truthy_opt o = false ↔ o = Some "" ∨ o = None.
Proof.
  split.
  - destruct o as [[|a s]|]; [now left | discriminate | now right].
  - now intros [-> | ->].
Qed.

Lemma step_no_suggestion_while_analysing (ev : event) (w : world) :
  (isAnalysing (view w) = true → JS.truthy_opt (aiSuggestion (view w)) = false) →
  isAnalysing (view (step ev w)) = true →
  JS.truthy_opt (aiSuggestion (view (step ev w))) = false.
Proof.
  intros Hw. destruct ev as [s|m| |s|sdk| |o]; cbn [step].
  - exact Hw.
  - exact Hw.
  - exact Hw.
  - destruct (showCBT (view w)); exact Hw.
  - destruct (analyze_button_enabled (view w)) eqn:Hon; [|exact Hw].
    apply enabled_facts in Hon as (_ & Hs & _ & Ht).
    destruct sdk as [[]|e].
    + rewrite handleAnalyzeCBT_sent by assumption. intros _. exact Hs.
    + rewrite handleAnalyzeCBT_threw by assumption. cbn. discriminate.
  - destruct (showCBT (view w) && JS.truthy_opt (aiSuggestion (view w))); [reflexivity | exact Hw].
  - destruct (in_flight w) as [|r rest]; [exact Hw|].
    destruct o as [r'|e]; cbn; discriminate.
Qed.

(** X9.  No suggestion is on display while a request is in flight: the
    suggestion is then the empty string, or absent after an answer that had
    no text. *)
Theorem X9_no_suggestion_while_analysing (evs : list event) :
  isAnalysing (view (run evs start)) = true →
  aiSuggestion (view (run evs start)) = Some ""
  ∨ aiSuggestion (view (run evs start)) = None.
Proof.
  intros H. apply falsy_cases. revert H.
  induction evs as [|ev evs IH] using rev_ind; [discriminate|].
  rewrite view_run_snoc. now apply step_no_suggestion_while_analysing.
Qed.

(** X10.  The suggestion the view holds is never made up: it is empty, the
    fallback, or what an answer of the service had for its text; and so is
    the suggestion of an entry saved from the view. *)
Theorem X10_suggestion_provenance (evs : list event) :
  (aiSuggestion (view (run evs start)) = Some ""
   ∨ aiSuggestion (view (run evs start)) = Some FALLBACK_SUGGESTION
   ∨ ∃ r, In (Answer (Normal r)) evs ∧ aiSuggestion (view (run evs start)) = text r)
  ∧ (∀ clock p entry,
       handleSubmit clock p (view (run evs start)) = Some entry →
       Entry.cbtSuggestion entry = None
       ∨ Entry.cbtSuggestion entry = Some ""
       ∨ Entry.cbtSuggestion entry = Some FALLBACK_SUGGESTION
       ∨ ∃ r, In (Answer (Normal r)) evs ∧ Entry.cbtSuggestion entry = text r).
Proof.
  assert (Hview : aiSuggestion (view (run evs start)) = Some ""
     ∨ aiSuggestion (view (run evs start)) = Some FALLBACK_SUGGESTION
     ∨ ∃ r, In (Answer (Normal r)) evs ∧ aiSuggestion (view (run evs start)) = text r).
  { induction evs as [|ev evs IH] using rev_ind; [now left|].
    rewrite view_run_snoc.
    assert (Hkeep : aiSuggestion (view (run evs start)) = Some ""
       ∨ aiSuggestion (view (run evs start)) = Some FALLBACK_SUGGESTION
       ∨ ∃ r, In (Answer (Normal r)) (evs ++ [ev])
              ∧ aiSuggestion (view (run evs start)) = text r).
    { destruct IH as [H | [H | (r & Hin & H)]]; [now left | now right; left|].
      right. right. exists r. split; [apply in_or_app; now left | exact H]. }
    clear IH. set (w := run evs start) in *.
    destruct ev as [s|m| |s|sdk| |o]; cbn [step].
    - exact Hkeep.
    - exact Hkeep.
    - exact Hkeep.
    - destruct (showCBT (view w)); exact Hkeep.
    - destruct (analyze_button_enabled (view w)); [|exact Hkeep].
      unfold handleAnalyzeCBT.
      destruct (JS.truthy (negativeThought (view w))); [|exact Hkeep].
      destruct sdk as [[]|e]; [exact Hkeep | right; now left].
    - destruct (showCBT (view w) && JS.truthy_opt (aiSuggestion (view w)));
        [now left | exact Hkeep].
    - destruct (in_flight w) as [|r0 rest]; [exact Hkeep|].
      destruct o as [r|e]; [|right; now left].
      right. right. exists r. split; [apply in_or_app; right; now left | reflexivity]. }
  split; [exact Hview|].
  intros clock p entry Hs.
  destruct (handleSubmit_entry _ _ _ _ Hs) as (_ & _ & _ & _ & -> & _).
  destruct (showCBT (view (run evs start))); [|now left].
  destruct Hview as [-> | [-> | (r & Hin & ->)]];
    [right; now left | right; right; now left |].
  right. right. right. now exists r.
Qed.

(** X11.  Regenerating clears the suggestion and nothing else: the content,
    the mood, the open panel, the thought and the analysing flag stay as
    they are, no request leaves and nothing is logged; with a thought left
    and no request in flight the pipeline is Ready again, and the next
    click sends one request, quoting the thought as it is then. *)
Theorem X11_regenerate (w : world) :
  showCBT (view w) = true → JS.truthy_opt (aiSuggestion (view w)) = true →
  aiSuggestion (view (step ClickRegenerate w)) = Some ""
  ∧ content (view (step ClickRegenerate w)) = content (view w)
  ∧ mood (view (step ClickRegenerate w)) = mood (view w)
  ∧ showCBT (view (step ClickRegenerate w)) = showCBT (view w)
  ∧ negativeThought (view (step ClickRegenerate w)) = negativeThought (view w)
  ∧ isAnalysing (view (step ClickRegenerate w)) = isAnalysing (view w)
  ∧ in_flight (step ClickRegenerate w) = in_flight w
  ∧ console (step ClickRegenerate w) = console w
  ∧ (isAnalysing (view w) = false → JS.truthy (negativeThought (view w)) = true →
     pipeline (view (step ClickRegenerate w)) = Ready
     ∧ step (ClickAnalyze (Normal tt)) (step ClickRegenerate w)
       = {| view := setIsAnalysing true (setAiSuggestion (Some "") (view w));
            in_flight := (in_flight w ++ [request (view w)])%list;
            console := console w |}).
Proof.
  intros Hshow Hsug.
  assert (Hstep : step ClickRegenerate w = on_view (setAiSuggestion (Some "")) w).
  { cbn [step]. now rewrite Hshow, Hsug. }
  rewrite Hstep. do 8 (split; [reflexivity|]). intros Hidle Hthought. split.
  - unfold pipeline. cbn. now rewrite Hidle, Hthought.
  - cbn [step]. unfold analyze_button_enabled. cbn. rewrite Hshow, Hidle, Hthought. cbn.
    unfold handleAnalyzeCBT. cbn. now rewrite Hthought.
Qed.

(** X12.  An answer is stored whatever the user has typed since the click: the
    request quotes the thought as it was at the click, and its answer lands
    next to the thought as it is when it arrives. *)
Theorem X12_answer_meets_edited_thought (w : world) (edited : string)
    (T : option string) :
  analyze_button_enabled (view w) = true → in_flight w = [] →
  in_flight (step (ClickAnalyze (Normal tt)) w) = [request (view w)]
  ∧ negativeThought
      (view (run [ClickAnalyze (Normal tt); ChangeNegativeThought edited;
                  Answer (Normal {| text := T |})] w)) = edited
  ∧ aiSuggestion
      (view (run [ClickAnalyze (Normal tt); ChangeNegativeThought edited;
                  Answer (Normal {| text := T |})] w)) = T
  ∧ in_flight (run [ClickAnalyze (Normal tt); ChangeNegativeThought edited;
                    Answer (Normal {| text := T |})] w) = [].
Proof.
  intros Hon Hfl.
  destruct (enabled_facts _ Hon) as (Hshow & _ & _ & Hthought).
  assert (Hstep : step (ClickAnalyze (Normal tt)) w
                  = send (request (view w)) (on_view (setIsAnalysing true) w)).
  { cbn [step]. rewrite Hon. now rewrite handleAnalyzeCBT_sent. }
  unfold run. cbn [fold_left]. rewrite Hstep.
  cbn. rewrite Hfl, Hshow. cbn. rewrite Hfl. repeat split.
Qed.

(** ** Entry ids *)

Lemma code_chr_digit (d : N) : (d < 10)%N → (JS.code (JS.chr (48 + d)) - 48 = d)%N.
Proof.
  intros H. unfold JS.code, JS.chr. rewrite N_ascii_embedding by lia. lia.
Qed.

Lemma digits_value (fuel : nat) (n : N) (acc : string) :
  (N.log2 n ≤ N.of_nat fuel)%N →
  decimal_value (JS.digits fuel n acc) 0 = decimal_value acc n.
Proof.
  revert n acc. induction fuel as [|fuel IH]; intros n acc Hlog.
  - assert (Hn : (n < 10)%N).
    { destruct (N.lt_ge_cases n 2) as [H|H]; [lia|].
      pose proof (N.log2_le_mono 2 n H) as Hm. change (N.log2 2) with 1%N in Hm. lia. }
    cbn [JS.digits decimal_value]. rewrite N.mod_small by assumption.
    rewrite code_chr_digit by assumption. f_equal; lia.
  - cbn [JS.digits]. destruct (N.ltb_spec n 10) as [Hn|Hn].
    + cbn [decimal_value]. rewrite N.mod_small by assumption.
      rewrite code_chr_digit by assumption. f_equal; lia.
    + rewrite IH.
      * cbn [decimal_value]. rewrite code_chr_digit by (apply N.mod_lt; lia).
        f_equal; pose proof (N.div_mod n 10 ltac:(lia)); lia.
      * assert (Hhalf : (n / 10 ≤ N.div2 n)%N).
        { rewrite N.div2_div. apply N.div_le_compat_l. lia. }
        pose proof (N.log2_le_mono _ _ Hhalf) as Hm.
        rewrite N.div2_spec, N.log2_shiftr in Hm. lia.
Qed.

(** The decimal text of a number reads back as the number. *)
Lemma decimal_value_toString (n : N) : decimal_value (JS.toString n) 0 = n.
Proof.
  unfold JS.toString. rewrite digits_value; [reflexivity|].
  rewrite N2Nat.id. lia.
Qed.

Lemma toString_inj (n m : N) : JS.toString n = JS.toString m → n = m.
Proof.
  intros H. rewrite <- (decimal_value_toString n), <- (decimal_value_toString m).
  now rewrite H.
Qed.

(** X13.  Two saved entries have the same id exactly when they were submitted at
    the same reading of [Date.now()], whatever they hold. *)
Theorem X13_entry_ids_follow_the_clock
    (clock1 clock2 : Clock) (p1 p2 : option string) (c1 c2 : state)
    (e1 e2 : JournalEntry) :
  handleSubmit clock1 p1 c1 = Some e1 → handleSubmit clock2 p2 c2 = Some e2 →
  Entry.id e1 = Entry.id e2 ↔ Date_now clock1 = Date_now clock2.
Proof.
  unfold handleSubmit.
  destruct (JS.truthy (JS.trim (content c1))); [|discriminate].
  destruct (JS.truthy (JS.trim (content c2))); [|discriminate].
  cbn [negb]. intros [= <-] [= <-]. cbn [Entry.id].
  split; [apply toString_inj | now intros ->].
Qed.

(** ** Prompts *)

Lemma exercise_prompt_shown (ex : Exercise.t) :
  In ex GUIDED_EXERCISES → prompt_shown (Some (Exercise.prompt ex)) = Exercise.prompt ex.
Proof. intros [<- | [<- | [<- | []]]]; reflexivity. Qed.

(** X14.  Choosing an exercise opens the composition with the exercise's prompt on
    display, and an entry saved there answers that prompt.  The save goes
    back to the home tab but keeps the prompt, so that the composition
    reopened from the navigation bar shows it again; the write buttons
    clear it. *)
Theorem X14_exercise_prompt_flow
    (i : nat) (ex : Exercise.t) (ls : Storage) (st : App.state)
    (clock : Clock) (evs : list event) :
  App.activeTab st = exercises → GUIDED_EXERCISES !! i = Some ex →
  ¬ JS.whitespace_only (content (view (run evs start))) →
  let w1 := Session.act (Session.SelectExercise i) (ls, st) in
  let w2 := Session.act (Session.Compose evs clock) w1 in
  App.activeTab (snd w1) = journal
  ∧ prompt_shown (App.viewProps (snd w1)) = Exercise.prompt ex
  ∧ (∃ entry, App.entries (snd w2) = entry :: App.entries st
              ∧ Entry.prompt entry = Some (Exercise.prompt ex))
  ∧ App.activeTab (snd w2) = home
  ∧ prompt_shown (App.viewProps (snd (Session.act (Session.Nav journal) w2)))
    = Exercise.prompt ex
  ∧ prompt_shown (App.viewProps (snd (Session.act Session.Write w2))) = DEFAULT_PROMPT.
Proof.
  intros Htab Hex Hcontent w1 w2.
  assert (Hin : In ex GUIDED_EXERCISES)
    by (apply list_elem_of_In, list_elem_of_lookup; now exists i).
  set (st1 := App.handleNavigateToExercise (Exercise.prompt ex) st).
  assert (Hw1 : w1 = (ls, st1)).
  { subst w1. cbn [Session.act]. now rewrite Htab, Hex. }
  destruct (save_stores_entry clock (view (run evs start)) (ls, st1) Hcontent)
    as (entry & Hsave & _ & _ & Hentries).
  assert (Hw2 : w2 = App.onSave entry (ls, st1)).
  { subst w2. rewrite Hw1. cbn [Session.act].
    change (App.activeTab st1) with journal. cbn iota.
    unfold save. now rewrite Hsave. }
  rewrite clickSave_handleSubmit in Hsave.
  pose proof (handleSubmit_entry _ _ _ _ Hsave) as (_ & _ & _ & _ & _ & Hprompt).
  unfold save in Hentries. rewrite clickSave_handleSubmit, Hsave in Hentries.
  rewrite Hw2, Hw1. clear Hw1 Hw2 w1 w2.
  split; [reflexivity|]. split; [now apply exercise_prompt_shown|].
  split; [exists entry; split; [exact Hentries | exact Hprompt]|].
  split; [reflexivity|]. split; [now apply exercise_prompt_shown | reflexivity].
Qed.

(** ** The mood table *)

(** X15.  Every mood has exactly one row in [MOODS], and the lookup of the home
    view finds it: no entry is shown without its icon. *)
Theorem X15_every_mood_has_one_row (m : Mood) :
  (∃ r, mood_row m = Some r ∧ MoodRow.value r = m)
  ∧ length (List.filter (fun r => mood_eqb (MoodRow.value r) m) MOODS) = 1%nat.
Proof. destruct m; (split; [eexists; split; reflexivity | reflexivity]). Qed.

(** ** The reminder settings *)

(** X16.  On the profile tab the switch changes the flag and keeps the time; the
    time input works only while the reminder is enabled, and then changes
    the time and keeps the flag.  Either way the new settings are what the
    next start reads back, and the entries, in the state and in the storage,
    are left alone. *)
Theorem X16_reminder_settings
    (checked : bool) (value : string) (ls : Storage) (st st' : App.state) :
  App.activeTab st = profile →
  let w1 := Session.act (Session.SetReminderEnabled checked) (ls, st) in
  let w2 := Session.act (Session.SetReminderTime value) w1 in
  App.settings (snd w1)
  = {| reminderTime := reminderTime (App.settings st); reminderEnabled := checked |}
  ∧ App.settings (snd w2)
    = {| reminderTime := (if checked then value else reminderTime (App.settings st));
         reminderEnabled := checked |}
  ∧ App.load_settings JSON.parse (fst w2) st'
    = App.Completed (App.setSettings (App.settings (snd w2)) st')
  ∧ App.entries (snd w2) = App.entries st
  ∧ fst w2 !! "mm_entries" = ls !! "mm_entries".
Proof.
  intros Htab w1 w2.
  set (s1 := with_reminderEnabled checked (App.settings st)).
  assert (Hw1 : w1 = App.settings_effect (ls, App.setSettings s1 st)).
  { subst w1. cbn [Session.act]. now rewrite Htab. }
  set (s2 := if checked then with_reminderTime value s1 else s1).
  assert (Hw2 : ∃ ls2 st2, w2 = App.settings_effect (ls2, st2)
                           ∧ App.settings st2 = s2
                           ∧ App.entries st2 = App.entries st
                           ∧ ls2 !! "mm_entries" = ls !! "mm_entries").
  { subst w2. rewrite Hw1. cbn [App.settings_effect Session.act].
    change (App.activeTab (App.setSettings s1 st)) with (App.activeTab st).
    rewrite Htab. change (reminderEnabled (App.settings (App.setSettings s1 st)))
      with checked.
    subst s2. destruct checked.
    - eexists _, _. split; [reflexivity|]. split; [reflexivity|].
      split; [reflexivity|]. now rewrite lookup_insert_ne.
    - exists ls, (App.setSettings s1 st). repeat split. }
  destruct Hw2 as (ls2 & st2 & Hw2 & Hs2 & He2 & Hl2).
  rewrite Hw2, Hw1. clear Hw1 Hw2 w1 w2.
  split; [reflexivity|]. split.
  - cbn [App.settings_effect snd]. rewrite Hs2. subst s2 s1. now destruct checked.
  - split; [apply settings_effect_hydrates|]. split; [exact He2|].
    cbn [App.settings_effect fst]. now rewrite lookup_insert_ne.
Qed.

(** ** What a save stores *)

(** X17.  A click on save stores an entry exactly when the content is not
    blank; the entry then heads the sequence and holds the content as typed,
    untrimmed, and the mood of the view. *)
Theorem X17_save_stores_iff_not_blank
    (clock : Clock) (c : state) (w : Storage * App.state) :
  (App.entries (snd (save clock c w)) = App.entries (snd w)
   ↔ JS.whitespace_only (content c))
  ∧ (App.entries (snd (save clock c w)) = App.entries (snd w)
     ∨ ∃ entry, App.entries (snd (save clock c w)) = entry :: App.entries (snd w)
                ∧ Entry.content entry = content c
                ∧ Entry.mood entry = mood c).
Proof.
  unfold save. rewrite clickSave_handleSubmit.
  destruct (handleSubmit clock (App.viewProps (snd w)) c) as [entry|] eqn:Hs.
  - destruct (handleSubmit_entry _ _ _ _ Hs) as (_ & Hc & Hm & _).
    destruct w as [ls st]. rewrite onSave_entries. cbn [snd] in *. split.
    + split.
      * intros Heq. apply (f_equal (@length _)) in Heq. cbn in Heq. lia.
      * intros Hws.
        apply (handleSubmit_none_iff clock (App.viewProps st)) in Hws. congruence.
    + right. now exists entry.
  - split; [|now left]. split; [|reflexivity].
    intros _. now apply handleSubmit_none_iff in Hs.
Qed.

(** ** Instances of the properties above *)

Lemma sample_visit_content_is_not_blank :
  ¬ JS.whitespace_only (content (view (run sample_visit start))).
Proof. intros H. apply whitespace_only_trim in H. discriminate H. Defined.

Lemma X2_witness :
  fst (App.entries_effect (number_storage, App.initial)) !! "mm_settings" = None
  ∧ fst (App.settings_effect (number_storage, App.initial)) !! "mm_entries" = Some "42".
Proof.
  split.
  - rewrite (proj1 (X2_effects_write_their_own_key number_storage App.initial "mm_settings"))
      by discriminate. reflexivity.
  - rewrite (proj2 (X2_effects_write_their_own_key number_storage App.initial "mm_entries"))
      by discriminate. reflexivity.
Defined.

Lemma X3_witness :
  (unlocked_count (App.badges App.initial)
   ≤ unlocked_count
       (App.badges (snd (App.onSave entry_with_suggestion (∅, App.initial)))) ≤ 4)%nat.
Proof.
  apply (X3_save_never_locks_a_badge entry_with_suggestion ∅ App.initial).
  reflexivity.
Defined.

Lemma X6_witness : badges_agree (snd (Session.run sample_session (∅, App.initial))).
Proof. apply (X6_badges_follow_entries sample_session ∅ App.initial). reflexivity. Defined.

Lemma initial_entries_ok : entries_ok App.initial.
Proof. split; [now left | constructor]. Defined.

Lemma X7_witness : entries_ok (snd (Session.run sample_session (∅, App.initial))).
Proof.
  apply (X7_stored_entries_are_well_formed sample_session ∅ App.initial).
  exact initial_entries_ok.
Defined.

Lemma X9_witness :
  aiSuggestion (view (run sample_request start)) = Some ""
  ∨ aiSuggestion (view (run sample_request start)) = None.
Proof. apply (X9_no_suggestion_while_analysing sample_request). reflexivity. Defined.

Lemma X11_witness :
  content (view (step ClickRegenerate padded_answer_world))
  = content (view padded_answer_world)
  ∧ pipeline (view (step ClickRegenerate padded_answer_world)) = Ready.
Proof.
  destruct (X11_regenerate padded_answer_world eq_refl eq_refl)
    as (_ & Hc & _ & _ & _ & _ & _ & _ & Hnext).
  split; [exact Hc|]. apply Hnext; reflexivity.
Defined.

Lemma X12_witness :
  aiSuggestion
    (view (run [ClickAnalyze (Normal tt); ChangeNegativeThought "";
                Answer (Normal {| text := Some padded_text |})] ready_world))
  = Some padded_text.
Proof.
  apply (X12_answer_meets_edited_thought ready_world "" (Some padded_text)); reflexivity.
Defined.

Lemma X13_witness :
  Entry.id abandoned_entry = Entry.id later_entry
  ↔ Date_now sample_clock = Date_now later_clock.
Proof.
  apply (X13_entry_ids_follow_the_clock sample_clock later_clock None None
           abandoned_composition abandoned_composition); reflexivity.
Defined.

Lemma X14_witness :
  prompt_shown
    (App.viewProps
       (snd (Session.act (Session.SelectExercise 1) (∅, exercises_state))))
  = "回顾本周，谁对你提供了支持或善意？你想对他说些什么？".
Proof.
  destruct (X14_exercise_prompt_flow 1 _ ∅ exercises_state sample_clock sample_visit
              eq_refl eq_refl sample_visit_content_is_not_blank) as (_ & H & _).
  exact H.
Defined.

Lemma X16_witness :
  App.settings
    (snd (Session.act (Session.SetReminderTime "07:30")
            (Session.act (Session.SetReminderEnabled true) (∅, profile_state))))
  = {| reminderTime := "07:30"; reminderEnabled := true |}.
Proof.
  apply (X16_reminder_settings true "07:30" ∅ profile_state App.initial).
  reflexivity.
Defined.
